(** * csi-driver-smb: the Windows CSI-proxy mounter

    A shallow embedding of [pkg/mounter/safe_mounter_windows.go].

    - Go strings are byte sequences; they are modelled by [string]
      (a sequence of [ascii], i.e. of bytes).
    - Calls that leave the process (the csi-proxy filesystem client, the
      csi-proxy SMB client and the name resolver) are the constructors of
      [Effect]; a method of [CSIProxyMounter] is a program of the monad
      [Prog], a tree of such calls, and [run] executes a program against an
      arbitrary stateful answering function, recording every call together
      with its answer.
    - [klog] statements are left out: they neither change a result nor
      reach csi-proxy. *)

From Stdlib Require Import String Ascii List ZArith Lia Bool DecimalString.
Import ListNotations.

Local Open Scope string_scope.
Local Open Scope list_scope.

(** ** The Go [strings] functions the file calls *)

Module strings.

(** [strings.HasPrefix(s, prefix)]. *)
Definition HasPrefix (s prefix : string) : bool := String.prefix prefix s.

(** [strings.HasSuffix(s, suffix)]:
    [len(s) >= len(suffix) && s[len(s)-len(suffix):] == suffix]. *)
Definition HasSuffix (s suffix : string) : bool :=
  (String.length suffix <=? String.length s)%nat
  && String.eqb
       (substring (String.length s - String.length suffix)
                  (String.length suffix) s)
       suffix.

(** The scan behind [strings.Replace] for a non-empty [old]: walk [s] from
    the left; where [old] starts and replacements are left ([n <> 0]),
    write [new] and step over the bytes of [old] ([skip] counts the ones
    still to step over); otherwise copy the byte. A negative [n] never
    reaches zero: no limit. *)
Fixpoint replaceFrom (old new : string) (n : Z) (skip : nat) (s : string)
  : string :=
  match s with
  | EmptyString => EmptyString
  | String c rest =>
      match skip with
      | S k => replaceFrom old new n k rest
      | O =>
          if (n =? 0)%Z then s
          else if String.prefix old s
               then new ++ replaceFrom old new (n - 1)
                                       (String.length old - 1) rest
               else String c (replaceFrom old new n 0 rest)
      end
  end.

(** [strings.Replace(s, old, new, n)]: the first [n] non-overlapping
    instances of [old] replaced by [new], all of them when [n < 0].
    Both calls of the file pass a non-empty [old] (the literal ["/"] and a
    field of [FieldsFunc], see [FieldsFunc_nonempty]); Go's rule for an
    empty [old] inserts at rune boundaries and is not modelled, [s] is
    returned there. *)
Definition Replace (s old new : string) (n : Z) : string :=
  match old with
  | EmptyString => s
  | _ => replaceFrom old new n 0 s
  end.

(** The loop of [strings.FieldsFunc]: [cur] is the field being read
    (empty when between fields, as Go's [start = -1]). The file's
    separator test accepts two ASCII runes only; every byte of a
    multi-byte or invalid UTF-8 sequence is at least 0x80, so testing
    bytes splits at the same places as testing runes. *)
Fixpoint fieldsFrom (f : ascii -> bool) (cur : string) (s : string)
  : list string :=
  match s with
  | EmptyString =>
      match cur with EmptyString => [] | _ => [cur] end
  | String c rest =>
      if f c
      then match cur with
           | EmptyString => fieldsFrom f EmptyString rest
           | _ => cur :: fieldsFrom f EmptyString rest
           end
      else fieldsFrom f (cur ++ String c EmptyString) rest
  end.

(** [strings.FieldsFunc(s, f)]. *)
Definition FieldsFunc (s : string) (f : ascii -> bool) : list string :=
  fieldsFrom f EmptyString s.

End strings.

(** ** normalizeWindowsPath and Split *)

Definition normalizeWindowsPath (path : string) : string :=
  let normalizedPath := strings.Replace path "/" "\" (-1) in
  if strings.HasPrefix normalizedPath "\"
  then "c:" ++ normalizedPath
  else normalizedPath.

Definition Split (r : ascii) : bool :=
  Ascii.eqb r " " || Ascii.eqb r "/".

(** ** Errors

    A Go [error] result is [option error], [None] being [nil]. *)

Inductive error : Type :=
| os_ErrNotExist
    (* the sentinel [os.ErrNotExist] *)
| fmt_Errorf (msg : string)
    (* a value made by [fmt.Errorf]; [msg] is the formatted text *)
| remote (msg : string).
    (* an error handed back by csi-proxy or by the resolver *)

(** [err.Error()], which is also what the verb [%v] prints. *)
Definition Error (err : error) : string :=
  match err with
  | os_ErrNotExist => "file does not exist"
  | fmt_Errorf msg => msg
  | remote msg => msg
  end.

(** The verb [%d] applied to a length. *)
Definition itoa (n : nat) : string := NilZero.string_of_uint (Nat.to_uint n).

(** ** The csi-proxy API messages the file builds and reads *)

Module fs.
Inductive PathContext : Type := PathContext_PLUGIN | PathContext_POD.

Record PathExistsRequest : Type := { pe_Path : string }.
Record PathExistsResponse : Type := { Exists : bool }.
Record MkdirRequest : Type :=
  { mk_Path : string; mk_Context : PathContext }.
Record RmdirRequest : Type :=
  { rm_Path : string; rm_Context : PathContext; rm_Force : bool }.
Record IsMountPointRequest : Type := { mp_Path : string }.
Record IsMountPointResponse : Type := { IsMountPoint : bool }.
Record LinkPathRequest : Type :=
  { SourcePath : string; TargetPath : string }.
End fs.

Module smb.
Record NewSmbGlobalMappingRequest : Type :=
  { LocalPath : string; RemotePath : string;
    Username : string; Password : string }.
End smb.

Module net.
(** A resolved [*net.IPAddr], kept as the text its [String()] prints. *)
Record IPAddr : Type := { IPAddr_String : string }.
End net.

(** ** Calls that leave the process *)

Inductive Effect : Type :=
| FsClient_PathExists (req : fs.PathExistsRequest)
| FsClient_Mkdir (req : fs.MkdirRequest)
| FsClient_Rmdir (req : fs.RmdirRequest)
| FsClient_IsMountPoint (req : fs.IsMountPointRequest)
| FsClient_LinkPath (req : fs.LinkPathRequest)
| SMBClient_NewSmbGlobalMapping (req : smb.NewSmbGlobalMappingRequest)
| net_ResolveIPAddr (network address : string).

(** What a call answers: the response message, or an error. A generated
    client returns exactly one of the two. *)
Definition Response (e : Effect) : Type :=
  match e with
  | FsClient_PathExists _ => fs.PathExistsResponse + error
  | FsClient_Mkdir _ => unit + error
  | FsClient_Rmdir _ => unit + error
  | FsClient_IsMountPoint _ => fs.IsMountPointResponse + error
  | FsClient_LinkPath _ => unit + error
  | SMBClient_NewSmbGlobalMapping _ => unit + error
  | net_ResolveIPAddr _ _ => net.IPAddr + error
  end%type.

(** Which collaborator a call is addressed to. *)
Inductive Peer : Type := FsClient | SMBClient | Resolver.

Definition peer (e : Effect) : Peer :=
  match e with
  | FsClient_PathExists _ | FsClient_Mkdir _ | FsClient_Rmdir _
  | FsClient_IsMountPoint _ | FsClient_LinkPath _ => FsClient
  | SMBClient_NewSmbGlobalMapping _ => SMBClient
  | net_ResolveIPAddr _ _ => Resolver
  end.

(** A request to the privileged helper (csi-proxy), through either client. *)
Definition isHelperRequest (e : Effect) : bool :=
  match peer e with
  | FsClient | SMBClient => true
  | Resolver => false
  end.

(** ** Programs *)

Inductive Prog (A : Type) : Type :=
| Ret (a : A)
| Call (e : Effect) (k : Response e -> Prog A).

Arguments Ret {A} a.
Arguments Call {A} e k.

Fixpoint bind {A B : Type} (p : Prog A) (f : A -> Prog B) : Prog B :=
  match p with
  | Ret a => f a
  | Call e k => Call e (fun x => bind (k x) f)
  end.

Definition call (e : Effect) : Prog (Response e) := Call e Ret.

Declare Scope prog_scope.
Delimit Scope prog_scope with prog.
Notation "x <- p ;; q" := (bind p (fun x => q))
  (at level 61, p at next level, right associativity) : prog_scope.
Notation "' pat <- p ;; q" := (bind p (fun x => match x with pat => q end))
  (at level 61, pat pattern, p at next level, right associativity) : prog_scope.
Local Open Scope prog_scope.

(** ** Running a program

    The world outside is a state [W] and a function answering each call.
    Nothing is assumed about either. *)

Definition Handler (W : Type) : Type :=
  forall e : Effect, W -> Response e * W.

(** One call with the answer it got. *)
Inductive Interaction : Type :=
| Interact (e : Effect) (x : Response e).

Definition request (i : Interaction) : Effect :=
  match i with Interact e _ => e end.

Record Outcome (W A : Type) : Type :=
  { result : A; trace : list Interaction; final : W }.

Arguments result {W A} _.
Arguments trace {W A} _.
Arguments final {W A} _.

Fixpoint run {W A : Type} (h : Handler W) (p : Prog A) (w : W)
  : Outcome W A :=
  match p with
  | Ret a => {| result := a; trace := []; final := w |}
  | Call e k =>
      let (x, w') := h e w in
      let o := run h (k x) w' in
      {| result := result o;
         trace := Interact e x :: trace o;
         final := final o |}
  end.

(** The calls of a run, in order, and those of them that went to the
    helper. *)
Definition requests {W A : Type} (o : Outcome W A) : list Effect :=
  map request (trace o).

Definition helperRequests {W A : Type} (o : Outcome W A) : list Effect :=
  filter isHelperRequest (requests o).


(** ** The methods of CSIProxyMounter *)

Module mount.
(** [mount.MountPoint] of k8s.io/mount-utils ([Type_] is its field
    [Type]). *)
Record MountPoint : Type :=
  { Device : string; Path : string; Type_ : string;
    Opts : list string; Freq : Z; Pass : Z }.
End mount.

Section CSIProxyMounter.

(** [filepath.Dir] of the Go standard library (its Windows build). It is a
    pure function of the path and is not part of this repository; the
    development holds for whatever it computes. *)
Variable filepath_Dir : string -> string.

(** ExistsPath - checks if a path exists. *)
Definition ExistsPath (path : string) : Prog (bool * option error) :=
  r <- call (FsClient_PathExists
               {| fs.pe_Path := normalizeWindowsPath path |}) ;;
  match r with
  | inr err => Ret (false, Some err)
  | inl isExistsResponse => Ret (fs.Exists isExistsResponse, None)
  end.

(** MakeDir - creates a directory, with Plugin context. *)
Definition MakeDir (path : string) : Prog (option error) :=
  r <- call (FsClient_Mkdir
               {| fs.mk_Path := normalizeWindowsPath path;
                  fs.mk_Context := fs.PathContext_PLUGIN |}) ;;
  match r with
  | inr err => Ret (Some err)
  | inl _ => Ret None
  end.

(** Rmdir - delete the given directory. *)
Definition Rmdir (path : string) : Prog (option error) :=
  r <- call (FsClient_Rmdir
               {| fs.rm_Path := normalizeWindowsPath path;
                  fs.rm_Context := fs.PathContext_POD;
                  fs.rm_Force := true |}) ;;
  match r with
  | inr err => Ret (Some err)
  | inl _ => Ret None
  end.

(** SMBMount. The test [len(mountOptions) == 0 || len(sensitiveMountOptions)
    == 0] and the later reads of [mountOptions[0]] and
    [sensitiveMountOptions[0]] are one pattern match: past the test both
    heads exist. *)
Definition SMBMount (source target fsType : string)
    (mountOptions sensitiveMountOptions : list string) : Prog (option error) :=
  match mountOptions, sensitiveMountOptions with
  | username :: _, password :: _ =>
      let parentDir := filepath_Dir target in
      '(parentExists, err) <- ExistsPath parentDir ;;
      match err with
      | Some err =>
          Ret (Some (fmt_Errorf ("parent dir: " ++ parentDir
                                 ++ " exist check failed with err: "
                                 ++ Error err)))
      | None =>
          let mapping :=
            let parts := strings.FieldsFunc source Split in
            source <-
              match parts with
              | domainName :: _ =>
                  if strings.HasSuffix domainName "svc.cluster.local"
                  then
                    (* replace hostname with IP in the source *)
                    r <- call (net_ResolveIPAddr "ip4" domainName) ;;
                    match r with
                    | inr _ => Ret source
                    | inl ip =>
                        Ret (strings.Replace source domainName
                                             (net.IPAddr_String ip) 1)
                    end
                  else Ret source
              | [] => Ret source
              end ;;
            let source := strings.Replace source "/" "\" (-1) in
            let smbMountRequest :=
              {| smb.LocalPath := normalizeWindowsPath target;
                 smb.RemotePath := source;
                 smb.Username := username;
                 smb.Password := password |} in
            r <- call (SMBClient_NewSmbGlobalMapping smbMountRequest) ;;
            match r with
            | inr err =>
                Ret (Some (fmt_Errorf ("smb mapping failed with error: "
                                       ++ Error err)))
            | inl _ => Ret None
            end
          in
          if negb parentExists
          then
            err <- MakeDir parentDir ;;
            match err with
            | Some err =>
                Ret (Some (fmt_Errorf ("create of parent dir: " ++ parentDir
                                       ++ " dailed with error: "
                                       ++ Error err)))
            | None => mapping
            end
          else mapping
      end
  | _, _ =>
      Ret (Some (fmt_Errorf
                   ("empty mountOptions(len: "
                    ++ itoa (List.length mountOptions)
                    ++ ") or sensitiveMountOptions(len: "
                    ++ itoa (List.length sensitiveMountOptions)
                    ++ ") is not allowed")))
  end.

Definition SMBUnmount (target : string) : Prog (option error) :=
  Rmdir target.

(** Mount just creates a soft link at target pointing to source. *)
Definition Mount (source target fstype : string) (options : list string)
  : Prog (option error) :=
  let linkRequest :=
    {| fs.SourcePath := normalizeWindowsPath source;
       fs.TargetPath := normalizeWindowsPath target |} in
  r <- call (FsClient_LinkPath linkRequest) ;;
  match r with
  | inr err => Ret (Some err)
  | inl _ => Ret None
  end.

(** Unmount - removes the directory - equivalent to unmount on Linux. *)
Definition Unmount (target : string) : Prog (option error) :=
  Rmdir target.

(** [List] (renamed: [List] is the library module of lists). *)
Definition List_ : Prog (list mount.MountPoint * option error) :=
  Ret ([], Some (fmt_Errorf "List not implemented for CSIProxyMounter")).

Definition IsMountPointMatch (mp : mount.MountPoint) (dir : string) : bool :=
  String.eqb (mount.Path mp) dir.

(** IsLikelyNotMountPoint - if the directory does not exist, the function
    returns the os.ErrNotExist error. *)
Definition IsLikelyNotMountPoint (path : string) : Prog (bool * option error) :=
  '(isExists, err) <- ExistsPath path ;;
  match err with
  | Some err => Ret (false, Some err)
  | None =>
      if negb isExists
      then Ret (true, Some os_ErrNotExist)
      else
        r <- call (FsClient_IsMountPoint
                     {| fs.mp_Path := normalizeWindowsPath path |}) ;;
        match r with
        | inr err => Ret (false, Some err)
        | inl response => Ret (negb (fs.IsMountPoint response), None)
        end
  end.

Definition PathIsDevice (pathname : string) : Prog (bool * option error) :=
  Ret (false,
       Some (fmt_Errorf "PathIsDevice not implemented for CSIProxyMounter")).

Definition DeviceOpened (pathname : string) : Prog (bool * option error) :=
  Ret (false,
       Some (fmt_Errorf "DeviceOpened not implemented for CSIProxyMounter")).

Definition GetDeviceNameFromMount (mountPath pluginMountDir : string)
  : Prog (string * option error) :=
  Ret (EmptyString,
       Some (fmt_Errorf
               "GetDeviceNameFromMount not implemented for CSIProxyMounter")).

Definition MakeRShared (path : string) : Prog (option error) :=
  Ret (Some (fmt_Errorf "MakeRShared not implemented for CSIProxyMounter")).

Definition MakeFile (pathname : string) : Prog (option error) :=
  Ret (Some (fmt_Errorf "MakeFile not implemented for CSIProxyMounter")).

Definition EvalHostSymlinks (pathname : string)
  : Prog (string * option error) :=
  Ret (EmptyString,
       Some (fmt_Errorf
               "EvalHostSymlinks not implemented for CSIProxyMounter")).

Definition GetMountRefs (pathname : string)
  : Prog (list string * option error) :=
  Ret ([],
       Some (fmt_Errorf "GetMountRefs not implemented for CSIProxyMounter")).

Definition GetFSGroup (pathname : string) : Prog (Z * option error) :=
  Ret ((-1)%Z,
       Some (fmt_Errorf "GetFSGroup not implemented for CSIProxyMounter")).

Definition GetSELinuxSupport (pathname : string)
  : Prog (bool * option error) :=
  Ret (false,
       Some (fmt_Errorf
               "GetSELinuxSupport not implemented for CSIProxyMounter")).

(** [os.FileMode] is a [uint32]. *)
Definition GetMode (pathname : string) : Prog (Z * option error) :=
  Ret (0%Z,
       Some (fmt_Errorf "GetMode not implemented for CSIProxyMounter")).

Definition MountSensitive (source target fstype : string)
    (options sensitiveOptions : list string) : Prog (option error) :=
  Ret (Some (fmt_Errorf
               "MountSensitive not implemented for CSIProxyMounter")).

Definition MountSensitiveWithoutSystemd (source target fstype : string)
    (options sensitiveOptions : list string) : Prog (option error) :=
  Ret (Some (fmt_Errorf
       "MountSensitiveWithoutSystemd not implemented for CSIProxyMounter")).

End CSIProxyMounter.

(** ** Definitions used to state and prove the properties *)

(** The forward slash becomes a backslash; any other byte is kept. *)
Definition toBackslash (c : ascii) : ascii :=
  if Ascii.eqb c "/" then "\"%char else c.

Fixpoint mapBytes (f : ascii -> ascii) (s : string) : string :=
  match s with
  | EmptyString => EmptyString
  | String c rest => String (f c) (mapBytes f rest)
  end.

Fixpoint allBytes (P : ascii -> bool) (s : string) : bool :=
  match s with
  | EmptyString => true
  | String c rest => P c && allBytes P rest
  end.

(** Lines 75 to 86 of the file: the source after the optional resolution. *)
Definition resolveSource (source : string) : Prog string :=
  match strings.FieldsFunc source Split with
  | domainName :: _ =>
      if strings.HasSuffix domainName "svc.cluster.local"
      then
        r <- call (net_ResolveIPAddr "ip4" domainName) ;;
        match r with
        | inr _ => Ret source
        | inl ip =>
            Ret (strings.Replace source domainName (net.IPAddr_String ip) 1)
        end
      else Ret source
  | [] => Ret source
  end.

(** Lines 88 to 98 of the file: the mapping request and its result. *)
Definition mappingRequest (source target username password : string)
  : Effect :=
  SMBClient_NewSmbGlobalMapping
    {| smb.LocalPath := normalizeWindowsPath target;
       smb.RemotePath := strings.Replace source "/" "\" (-1);
       smb.Username := username;
       smb.Password := password |}.

Definition mappingResult (x : unit + error) : option error :=
  match x with
  | inl _ => None
  | inr err =>
      Some (fmt_Errorf ("smb mapping failed with error: " ++ Error err))
  end.

Definition createMapping (source target username password : string)
  : Prog (option error) :=
  r <- call (mappingRequest source target username password) ;;
  match r with
  | inr err =>
      Ret (Some (fmt_Errorf ("smb mapping failed with error: " ++ Error err)))
  | inl _ => Ret None
  end.

(** The resolver's part of an interaction, if it is one. *)
Definition resolution (i : Interaction)
  : option (string * string * (net.IPAddr + error)) :=
  match i with
  | Interact (net_ResolveIPAddr network address) x =>
      Some (network, address, x)
  | _ => None
  end.

(** ** A test double for the node

    A small csi-proxy and resolver to run the methods against on concrete
    inputs: the directories that exist, the paths that are mount points,
    the share mappings made so far and the names that resolve. *)

Record Node : Type :=
  { dirs : list string;
    mountPoints : list string;
    mappings : list smb.NewSmbGlobalMappingRequest;
    dns : list (string * string) }.

Definition has (l : list string) (p : string) : bool :=
  existsb (String.eqb p) l.

Fixpoint lookup (l : list (string * string)) (name : string)
  : option string :=
  match l with
  | [] => None
  | (k, v) :: l' => if String.eqb k name then Some v else lookup l' name
  end.

Definition node : Handler Node :=
  fun e =>
    match e return Node -> Response e * Node with
    | FsClient_PathExists req => fun w =>
        (inl {| fs.Exists := has (dirs w) (fs.pe_Path req) |}, w)
    | FsClient_Mkdir req => fun w =>
        (inl tt,
         {| dirs := fs.mk_Path req :: dirs w; mountPoints := mountPoints w;
            mappings := mappings w; dns := dns w |})
    | FsClient_Rmdir req => fun w =>
        (inl tt,
         {| dirs := filter (fun d => negb (String.eqb d (fs.rm_Path req)))
                           (dirs w);
            mountPoints := mountPoints w;
            mappings := mappings w; dns := dns w |})
    | FsClient_IsMountPoint req => fun w =>
        (inl {| fs.IsMountPoint := has (mountPoints w) (fs.mp_Path req) |}, w)
    | FsClient_LinkPath req => fun w =>
        (inl tt,
         {| dirs := fs.TargetPath req :: dirs w;
            mountPoints := fs.TargetPath req :: mountPoints w;
            mappings := mappings w; dns := dns w |})
    | SMBClient_NewSmbGlobalMapping req => fun w =>
        (inl tt,
         {| dirs := smb.LocalPath req :: dirs w;
            mountPoints := smb.LocalPath req :: mountPoints w;
            mappings := req :: mappings w; dns := dns w |})
    | net_ResolveIPAddr _ address => fun w =>
        (match lookup (dns w) address with
         | Some ip => inl {| net.IPAddr_String := ip |}
         | None => inr (remote ("lookup " ++ address ++ ": no such host"))
         end, w)
    end.

(** A node on which [c:\mnt] exists, [c:\mnt\old] is a mount point and one
    cluster-internal name resolves. *)
Definition node0 : Node :=
  {| dirs := ["c:\mnt"; "c:\mnt\old"; "c:\mnt\plain"];
     mountPoints := ["c:\mnt\old"];
     mappings := [];
     dns := [("smb-server.default.svc.cluster.local", "10.0.0.4")] |}.

(** A csi-proxy that refuses every request, and a resolver that finds
    nothing. *)
Definition refusing : Handler unit :=
  fun e =>
    match e return unit -> Response e * unit with
    | FsClient_PathExists _ => fun w => (inr (remote "refused"), w)
    | FsClient_Mkdir _ => fun w => (inr (remote "refused"), w)
    | FsClient_Rmdir _ => fun w => (inr (remote "refused"), w)
    | FsClient_IsMountPoint _ => fun w => (inr (remote "refused"), w)
    | FsClient_LinkPath _ => fun w => (inr (remote "refused"), w)
    | SMBClient_NewSmbGlobalMapping _ => fun w => (inr (remote "refused"), w)
    | net_ResolveIPAddr _ _ => fun w => (inr (remote "no such host"), w)
    end.

(** A stand-in for [filepath.Dir] in the examples: the path up to its last
    separator, written with backslashes. On the targets used below it gives
    what the Windows [filepath.Dir] gives ([\mnt] for [/mnt/smb], [\new] for
    [/new/smb]). *)
Fixpoint dirOf (acc : string) (cur : string) (p : string) : string :=
  match p with
  | EmptyString => acc
  | String c rest =>
      if Ascii.eqb c "/" || Ascii.eqb c "\"
      then dirOf (acc ++ cur) (String c EmptyString) rest
      else dirOf acc (cur ++ String c EmptyString) rest
  end.

Definition sampleDir (p : string) : string :=
  strings.Replace (dirOf EmptyString EmptyString p) "/" "\" (-1).

(** A csi-proxy on a read-only volume: nothing exists and nothing can be
    created. *)
Definition readonly : Handler unit :=
  fun e =>
    match e return unit -> Response e * unit with
    | FsClient_PathExists _ => fun w => (inl {| fs.Exists := false |}, w)
    | FsClient_Mkdir _ => fun w => (inr (remote "access denied"), w)
    | FsClient_Rmdir _ => fun w => (inr (remote "access denied"), w)
    | FsClient_IsMountPoint _ => fun w => (inr (remote "access denied"), w)
    | FsClient_LinkPath _ => fun w => (inr (remote "access denied"), w)
    | SMBClient_NewSmbGlobalMapping _ => fun w =>
        (inr (remote "access denied"), w)
    | net_ResolveIPAddr _ _ => fun w => (inr (remote "no such host"), w)
    end.

(** A source whose share path repeats the name of the host. *)
Definition sourceNamedTwice : string :=
  "//smb-server.default.svc.cluster.local/share/smb-server.default.svc.cluster.local".

(** ** Further definitions for the properties of the whole file *)

(** No forward slash in the string. *)
Definition noSlash (s : string) : bool :=
  allBytes (fun c => negb (Ascii.eqb c "/")) s.

(** The string begins with a slash or a backslash: a path with no drive. *)
Definition rooted (s : string) : bool :=
  String.prefix "/" s || String.prefix "\" s.

(** The local paths a request carries to csi-proxy. *)
Definition localPaths (e : Effect) : list string :=
  match e with
  | FsClient_PathExists req => [fs.pe_Path req]
  | FsClient_Mkdir req => [fs.mk_Path req]
  | FsClient_Rmdir req => [fs.rm_Path req]
  | FsClient_IsMountPoint req => [fs.mp_Path req]
  | FsClient_LinkPath req => [fs.SourcePath req; fs.TargetPath req]
  | SMBClient_NewSmbGlobalMapping req => [smb.LocalPath req]
  | net_ResolveIPAddr _ _ => []
  end.

(** The answer to a mapping request, if the interaction is one. *)
Definition mappingReply (i : Interaction) : option (unit + error) :=
  match i with
  | Interact (SMBClient_NewSmbGlobalMapping _) x => Some x
  | _ => None
  end.

(** A csi-proxy on which every path exists and directories can be made,
    but which can neither map a share nor tell a mount point; no name
    resolves. *)
Definition mapDenied : Handler unit :=
  fun e =>
    match e return unit -> Response e * unit with
    | FsClient_PathExists _ => fun w => (inl {| fs.Exists := true |}, w)
    | FsClient_Mkdir _ => fun w => (inl tt, w)
    | FsClient_Rmdir _ => fun w => (inl tt, w)
    | FsClient_IsMountPoint _ => fun w => (inr (remote "access denied"), w)
    | FsClient_LinkPath _ => fun w => (inr (remote "access denied"), w)
    | SMBClient_NewSmbGlobalMapping _ => fun w =>
        (inr (remote "access denied"), w)
    | net_ResolveIPAddr _ _ => fun w => (inr (remote "no such host"), w)
    end.

(** Every local path a request carries is free of forward slashes and
    does not begin with a backslash. *)
Definition pathsClean (e : Effect) : bool :=
  forallb (fun p => noSlash p && negb (String.prefix "\" p)) (localPaths e).

(** * Properties *)

(** ** Tactics *)

(** Two recorded answers to the same call in the same state agree. *)
Ltac same_answer :=
  repeat match goal with
         | H1 : ?h ?e ?w = _, H2 : ?h ?e ?w = _ |- _ =>
             rewrite H1 in H2; inversion H2; subst; clear H2
         end.

(** Reads an equation between interactions through [resolution]. *)
Ltac by_resolution H :=
  apply (f_equal resolution) in H; cbn [resolution] in H;
  try discriminate H.

(** ** The string functions on concrete inputs *)

Example normalize_ex1 : normalizeWindowsPath "/mnt/smb" = "c:\mnt\smb".
Proof. reflexivity. Qed.

Example fields_ex1 :
  strings.FieldsFunc "//smb-server.default.svc.cluster.local/share" Split
  = ["smb-server.default.svc.cluster.local"; "share"].
Proof. reflexivity. Qed.

Example replace_ex1 : strings.Replace "a/b/a/b" "a" "xy" 1 = "xy/b/a/b".
Proof. reflexivity. Qed.

Example replace_ex2 : strings.Replace "aaaa" "aa" "b" (-1) = "bb".
Proof. reflexivity. Qed.

Example replace_ex3 : strings.Replace "aaa" "aa" "b" (-1) = "ba".
Proof. reflexivity. Qed.

Example suffix_ex1 : strings.HasSuffix "x.svc.cluster.local" "svc.cluster.local" = true.
Proof. reflexivity. Qed.

(** ** A mount on the test node

    [SMBMount("//smb-server/share", "/mnt/smb", ["user"], ["pass"])] where
    [c:\mnt] exists: the parent is checked, nothing is created, the mapping
    is requested for [\\smb-server\share] at [c:\mnt\smb], and the result
    is nil. *)
Example SMBMount_scenario :
  let o := run node (SMBMount sampleDir "//smb-server/share" "/mnt/smb" "cifs"
                              ["user"] ["pass"]) node0 in
  result o = None
  /\ requests o
     = [FsClient_PathExists {| fs.pe_Path := "c:\mnt" |};
        SMBClient_NewSmbGlobalMapping
          {| smb.LocalPath := "c:\mnt\smb";
             smb.RemotePath := "\\smb-server\share";
             smb.Username := "user";
             smb.Password := "pass" |}].
Proof. split; reflexivity. Qed.

(** Unmounting a target that is not there: one forced [Rmdir], no error. *)
Example SMBUnmount_scenario :
  let o := run node (SMBUnmount "/mnt/none") node0 in
  result o = None
  /\ requests o
     = [FsClient_Rmdir {| fs.rm_Path := "c:\mnt\none";
                          fs.rm_Context := fs.PathContext_POD;
                          fs.rm_Force := true |}].
Proof. split; reflexivity. Qed.

(** ** Bytes of a string *)

Lemma get_mapBytes (f : ascii -> ascii) (s : string) (i : nat) :
  get i (mapBytes f s) = option_map f (get i s).
Proof.
  revert i; induction s as [|c rest IH]; intros [|i]; simpl; auto.
Qed.

Lemma toBackslash_idem (c : ascii) : toBackslash (toBackslash c) = toBackslash c.
Proof.
  unfold toBackslash. destruct (Ascii.eqb c "/") eqn:E; [reflexivity |].
  now rewrite E.
Qed.

Lemma mapBytes_toBackslash_idem (s : string) :
  mapBytes toBackslash (mapBytes toBackslash s) = mapBytes toBackslash s.
Proof.
  induction s as [|c rest IH]; simpl; [reflexivity |].
  now rewrite toBackslash_idem, IH.
Qed.

(** Replacing every ["/"] by ["\"] works byte by byte. *)
Lemma replaceFrom_slash (s : string) (n : Z) :
  (n < 0)%Z -> strings.replaceFrom "/" "\" n 0 s = mapBytes toBackslash s.
Proof.
  revert n; induction s as [|c rest IH]; intros n Hn; [reflexivity |].
  cbn [strings.replaceFrom mapBytes].
  destruct (Z.eqb_spec n 0) as [->|_]; [lia |].
  unfold toBackslash. cbn [String.prefix].
  destruct (ascii_dec "/" c) as [<-|Hc].
  - replace (String.prefix EmptyString rest) with true by (now destruct rest).
    cbn. rewrite IH by lia. reflexivity.
  - destruct (Ascii.eqb_spec c "/") as [->|_]; [congruence |].
    now rewrite IH.
Qed.

Lemma Replace_slash (s : string) :
  strings.Replace s "/" "\" (-1) = mapBytes toBackslash s.
Proof. unfold strings.Replace. apply replaceFrom_slash. lia. Qed.

(** ** normalizeWindowsPath *)

Lemma normalizeWindowsPath_unfold (p : string) :
  normalizeWindowsPath p
  = (if String.prefix "\" (mapBytes toBackslash p)
     then "c:" ++ mapBytes toBackslash p
     else mapBytes toBackslash p)%string.
Proof.
  unfold normalizeWindowsPath, strings.HasPrefix.
  now rewrite Replace_slash.
Qed.

(** C2. For every path [p], [normalizeWindowsPath p] is defined (it is a
    total function), it is built from the string [r] that has a backslash
    wherever [p] has a forward slash and the byte of [p] everywhere else,
    with ["c:"] put in front exactly when [r] begins with a backslash, and
    normalizing a second time changes nothing. *)
Theorem normalizeWindowsPath_total_idempotent (p : string) :
  exists r : string,
    (forall i : nat, get i r = option_map toBackslash (get i p))
    /\ normalizeWindowsPath p
       = (if String.prefix "\" r then "c:" ++ r else r)%string
    /\ normalizeWindowsPath (normalizeWindowsPath p) = normalizeWindowsPath p.
Proof.
  exists (mapBytes toBackslash p).
  split; [intro i; apply get_mapBytes |].
  split; [apply normalizeWindowsPath_unfold |].
  rewrite (normalizeWindowsPath_unfold p).
  destruct (String.prefix "\" (mapBytes toBackslash p)) eqn:E.
  - rewrite normalizeWindowsPath_unfold.
    change (mapBytes toBackslash ("c:" ++ mapBytes toBackslash p))
      with ("c:" ++ mapBytes toBackslash (mapBytes toBackslash p))%string.
    rewrite mapBytes_toBackslash_idem. reflexivity.
  - rewrite normalizeWindowsPath_unfold, mapBytes_toBackslash_idem, E.
    reflexivity.
Qed.

(** ** SMBMount: the option check *)

(** C3. When [mountOptions] or [sensitiveMountOptions] is empty, [SMBMount]
    returns the error "empty mountOptions(len: ..) or
    sensitiveMountOptions(len: ..) is not allowed" (the invalid-argument
    failure) and makes no call at all: no existence check, no mkdir, no
    mapping request; the world is left as it was. *)
Theorem SMBMount_empty_options
    (Dir : string -> string) (W : Type) (h : Handler W) (w : W)
    (source target fsType : string)
    (mountOptions sensitiveMountOptions : list string) :
  mountOptions = [] \/ sensitiveMountOptions = [] ->
  let o := run h (SMBMount Dir source target fsType
                           mountOptions sensitiveMountOptions) w in
  result o
  = Some (fmt_Errorf
            ("empty mountOptions(len: " ++ itoa (List.length mountOptions)
             ++ ") or sensitiveMountOptions(len: "
             ++ itoa (List.length sensitiveMountOptions)
             ++ ") is not allowed"))
  /\ trace o = []
  /\ helperRequests o = []
  /\ final o = w.
Proof.
  intros [-> | ->]; cbn zeta.
  - repeat split.
  - destruct mountOptions; repeat split.
Qed.

(** On the test node, with no mount option at all. *)
Lemma SMBMount_empty_options_witness :
  (@nil string = [] \/ ["pass"] = [])
  /\ result (run node (SMBMount sampleDir "//smb-server/share" "/mnt/smb" "cifs"
                                [] ["pass"]) node0)
     = Some (fmt_Errorf
               "empty mountOptions(len: 0) or sensitiveMountOptions(len: 1) is not allowed").
Proof.
  split; [left; reflexivity |].
  apply (SMBMount_empty_options sampleDir Node node node0
           "//smb-server/share" "/mnt/smb" "cifs" [] ["pass"]).
  left; reflexivity.
Defined.

(** ** IsLikelyNotMountPoint *)

(** C5. [IsLikelyNotMountPoint path] asks csi-proxy whether the normalized
    path exists. When the answer is "does not exist" it returns
    [(true, os.ErrNotExist)]; when the path exists and csi-proxy answers
    that it is not a mount point it returns [(true, nil)]; when the path
    exists and csi-proxy answers that it is a mount point it returns
    [(false, nil)]. *)
Theorem IsLikelyNotMountPoint_cases
    (W : Type) (h : Handler W) (w : W) (path : string) :
  let q := FsClient_PathExists {| fs.pe_Path := normalizeWindowsPath path |} in
  let m := FsClient_IsMountPoint {| fs.mp_Path := normalizeWindowsPath path |} in
  let o := run h (IsLikelyNotMountPoint path) w in
  (forall w1 : W,
      h q w = (inl {| fs.Exists := false |}, w1) ->
      result o = (true, Some os_ErrNotExist))
  /\ (forall w1 w2 : W,
         h q w = (inl {| fs.Exists := true |}, w1) ->
         h m w1 = (inl {| fs.IsMountPoint := false |}, w2) ->
         result o = (true, None))
  /\ (forall w1 w2 : W,
         h q w = (inl {| fs.Exists := true |}, w1) ->
         h m w1 = (inl {| fs.IsMountPoint := true |}, w2) ->
         result o = (false, None)).
Proof.
  cbn zeta. unfold IsLikelyNotMountPoint, ExistsPath, call. cbn.
  repeat split.
  - intros w1 E. rewrite E. reflexivity.
  - intros w1 w2 E1 E2. rewrite E1. cbn. rewrite E2. reflexivity.
  - intros w1 w2 E1 E2. rewrite E1. cbn. rewrite E2. reflexivity.
Qed.

(** The three cases on the test node: a missing path, a plain directory
    and a mount point. *)
Lemma IsLikelyNotMountPoint_cases_witness :
  result (run node (IsLikelyNotMountPoint "/mnt/none") node0)
  = (true, Some os_ErrNotExist)
  /\ result (run node (IsLikelyNotMountPoint "/mnt/plain") node0)
     = (true, None)
  /\ result (run node (IsLikelyNotMountPoint "/mnt/old") node0)
     = (false, None).
Proof.
  split; [| split].
  - apply (proj1 (IsLikelyNotMountPoint_cases Node node node0 "/mnt/none")
             node0).
    reflexivity.
  - apply (proj1 (proj2
             (IsLikelyNotMountPoint_cases Node node node0 "/mnt/plain"))
             node0 node0); reflexivity.
  - apply (proj2 (proj2
             (IsLikelyNotMountPoint_cases Node node node0 "/mnt/old"))
             node0 node0); reflexivity.
Defined.

(** ** The operations that are not supported *)

(** C6. [List], [PathIsDevice], [DeviceOpened], [GetDeviceNameFromMount],
    [MakeRShared], [MakeFile], [EvalHostSymlinks], [GetMountRefs],
    [GetFSGroup], [GetSELinuxSupport], [GetMode], [MountSensitive] and
    [MountSensitiveWithoutSystemd] return, on every input and whatever the
    helper would answer, an error that is not nil and whose text is
    "<operation> not implemented for CSIProxyMounter"; none of them makes a
    call. *)
Theorem unsupported_not_implemented
    (W : Type) (h : Handler W) (w : W)
    (a b c : string) (l1 l2 : list string) :
  let notImplemented (name : string) : option error :=
    Some (fmt_Errorf (name ++ " not implemented for CSIProxyMounter")) in
  run h List_ w
  = {| result := ([], notImplemented "List"); trace := []; final := w |}
  /\ run h (PathIsDevice a) w
     = {| result := (false, notImplemented "PathIsDevice");
          trace := []; final := w |}
  /\ run h (DeviceOpened a) w
     = {| result := (false, notImplemented "DeviceOpened");
          trace := []; final := w |}
  /\ run h (GetDeviceNameFromMount a b) w
     = {| result := (EmptyString, notImplemented "GetDeviceNameFromMount");
          trace := []; final := w |}
  /\ run h (MakeRShared a) w
     = {| result := notImplemented "MakeRShared"; trace := []; final := w |}
  /\ run h (MakeFile a) w
     = {| result := notImplemented "MakeFile"; trace := []; final := w |}
  /\ run h (EvalHostSymlinks a) w
     = {| result := (EmptyString, notImplemented "EvalHostSymlinks");
          trace := []; final := w |}
  /\ run h (GetMountRefs a) w
     = {| result := ([], notImplemented "GetMountRefs");
          trace := []; final := w |}
  /\ run h (GetFSGroup a) w
     = {| result := ((-1)%Z, notImplemented "GetFSGroup");
          trace := []; final := w |}
  /\ run h (GetSELinuxSupport a) w
     = {| result := (false, notImplemented "GetSELinuxSupport");
          trace := []; final := w |}
  /\ run h (GetMode a) w
     = {| result := (0%Z, notImplemented "GetMode");
          trace := []; final := w |}
  /\ run h (MountSensitive a b c l1 l2) w
     = {| result := notImplemented "MountSensitive";
          trace := []; final := w |}
  /\ run h (MountSensitiveWithoutSystemd a b c l1 l2) w
     = {| result := notImplemented "MountSensitiveWithoutSystemd";
          trace := []; final := w |}.
Proof. cbn zeta. repeat split. Qed.

(** ** Unmounting *)

Lemma run_Rmdir (W : Type) (h : Handler W) (w : W) (path : string) :
  let e := FsClient_Rmdir {| fs.rm_Path := normalizeWindowsPath path;
                             fs.rm_Context := fs.PathContext_POD;
                             fs.rm_Force := true |} in
  run h (Rmdir path) w
  = {| result := match fst (h e w) with
                 | inl _ => None
                 | inr err => Some err
                 end;
       trace := [Interact e (fst (h e w))];
       final := snd (h e w) |}.
Proof.
  cbn zeta. unfold Rmdir, call. cbn.
  destruct (h _ w) as [[u | err] w1]; reflexivity.
Qed.

(** C7. For every target and every helper, [SMBUnmount target] makes exactly
    one call: [Rmdir] on the filesystem client with the normalized target,
    the pod context and [Force = true]. Its result is that call's error (nil
    when the call succeeds). No call goes to the SMB client, so no share
    mapping is removed (or touched in any way). *)
Theorem SMBUnmount_one_forced_pod_rmdir
    (W : Type) (h : Handler W) (w : W) (target : string) :
  let e := FsClient_Rmdir {| fs.rm_Path := normalizeWindowsPath target;
                             fs.rm_Context := fs.PathContext_POD;
                             fs.rm_Force := true |} in
  let o := run h (SMBUnmount target) w in
  requests o = [e]
  /\ helperRequests o = [e]
  /\ filter (fun e' => match peer e' with SMBClient => true | _ => false end)
            (requests o) = []
  /\ result o = match fst (h e w) with inl _ => None | inr err => Some err end
  /\ final o = snd (h e w).
Proof.
  cbn zeta. unfold SMBUnmount. rewrite run_Rmdir. repeat split.
Qed.

(** ** SMBMount: the shape of a run *)

Lemma run_bind {W A B : Type} (h : Handler W) (p : Prog A) (f : A -> Prog B)
    (w : W) :
  run h (bind p f) w
  = let o1 := run h p w in
    let o2 := run h (f (result o1)) (final o1) in
    {| result := result o2;
       trace := trace o1 ++ trace o2;
       final := final o2 |}.
Proof.
  revert w; induction p as [a | e k IH]; intro w; cbn [bind run].
  - cbn. destruct (run h (f a) w); reflexivity.
  - destruct (h e w) as [x w1]. rewrite IH. reflexivity.
Qed.

Lemma SMBMount_unfold (Dir : string -> string)
    (source target fsType username password : string)
    (mo smo : list string) :
  SMBMount Dir source target fsType (username :: mo) (password :: smo)
  = ('(parentExists, err) <- ExistsPath (Dir target) ;;
     match err with
     | Some err =>
         Ret (Some (fmt_Errorf ("parent dir: " ++ Dir target
                                ++ " exist check failed with err: "
                                ++ Error err)))
     | None =>
         if negb parentExists
         then
           err <- MakeDir (Dir target) ;;
           match err with
           | Some err =>
               Ret (Some (fmt_Errorf ("create of parent dir: " ++ Dir target
                                      ++ " dailed with error: "
                                      ++ Error err)))
           | None =>
               s <- resolveSource source ;;
               createMapping s target username password
           end
         else
           s <- resolveSource source ;;
           createMapping s target username password
     end).
Proof.
  unfold SMBMount, resolveSource, createMapping, mappingRequest.
  reflexivity.
Qed.

Lemma run_createMapping (W : Type) (h : Handler W) (w : W)
    (source target username password : string) :
  let e := mappingRequest source target username password in
  run h (createMapping source target username password) w
  = {| result := mappingResult (fst (h e w));
       trace := [Interact e (fst (h e w))];
       final := snd (h e w) |}.
Proof.
  cbn zeta. unfold createMapping, call. cbn [bind run].
  destruct (h _ w) as [[u | err] w1]; reflexivity.
Qed.

(** What the resolution step can do: nothing, or one call to the resolver
    for the first field of the source. *)
Lemma run_resolveSource (W : Type) (h : Handler W) (w : W) (source : string) :
  let o := run h (resolveSource source) w in
  (trace o = [] /\ result o = source /\ final o = w)
  \/ (exists (host : string) (rest : list string),
         strings.FieldsFunc source Split = host :: rest
         /\ strings.HasSuffix host "svc.cluster.local" = true
         /\ let r := net_ResolveIPAddr "ip4" host in
            trace o = [Interact r (fst (h r w))]
            /\ final o = snd (h r w)
            /\ result o
               = match fst (h r w) with
                 | inl ip =>
                     strings.Replace source host (net.IPAddr_String ip) 1
                 | inr _ => source
                 end).
Proof.
  cbn zeta. unfold resolveSource.
  destruct (strings.FieldsFunc source Split) as [|host rest];
    [left; repeat split |].
  destruct (strings.HasSuffix host "svc.cluster.local") eqn:E;
    [| left; repeat split].
  right. exists host, rest. repeat split; trivial;
    unfold call; cbn [bind run];
    destruct (h _ w) as [[ip | err] w1]; reflexivity.
Qed.

(** Lines 75 to 98: at most one resolver call, then the mapping request,
    whose answer alone decides the result. *)
Lemma run_resolve_then_map (W : Type) (h : Handler W) (w : W)
    (source target username password : string) :
  let t := run h (s <- resolveSource source ;;
                  createMapping s target username password) w in
  exists (pre : list Interaction) (s' : string) (reply : unit + error),
    trace t = pre ++ [Interact (mappingRequest s' target username password)
                               reply]
    /\ result t = mappingResult reply
    /\ ((pre = [] /\ s' = source)
        \/ exists (host : string) (rest : list string)
                  (x : net.IPAddr + error),
             strings.FieldsFunc source Split = host :: rest
             /\ strings.HasSuffix host "svc.cluster.local" = true
             /\ pre = [Interact (net_ResolveIPAddr "ip4" host) x]
             /\ s' = match x with
                     | inl ip =>
                         strings.Replace source host (net.IPAddr_String ip) 1
                     | inr _ => source
                     end).
Proof.
  cbn zeta. rewrite run_bind. cbn zeta. cbn [result trace final].
  rewrite run_createMapping. cbn [result trace final].
  destruct (run_resolveSource W h w source)
    as [(Ht & Hr & Hf) | (host & rest & HF & HS & Ht & Hf & Hr)].
  - rewrite Ht, Hr, Hf. eexists [], source, _. repeat split. now left.
  - rewrite Ht, Hr, Hf.
    eexists [_], _, _. repeat split. right.
    exists host, rest, (fst (h (net_ResolveIPAddr "ip4" host) w)).
    repeat split; assumption.
Qed.

(** The run of [SMBMount] with non-empty options, by the answers to the
    existence check and to the mkdir. *)
Lemma run_SMBMount (Dir : string -> string) (W : Type) (h : Handler W) (w : W)
    (source target fsType username password : string)
    (mo smo : list string) :
  let parent := Dir target in
  let q := FsClient_PathExists {| fs.pe_Path := normalizeWindowsPath parent |} in
  let m := FsClient_Mkdir {| fs.mk_Path := normalizeWindowsPath parent;
                             fs.mk_Context := fs.PathContext_PLUGIN |} in
  let tail := (s <- resolveSource source ;;
               createMapping s target username password) in
  let o := run h (SMBMount Dir source target fsType
                           (username :: mo) (password :: smo)) w in
  (exists (err : error) (w1 : W),
      h q w = (inr err, w1)
      /\ trace o = [Interact q (inr err)]
      /\ result o = Some (fmt_Errorf
                            ("parent dir: " ++ parent
                             ++ " exist check failed with err: "
                             ++ Error err)))
  \/ (exists (w1 : W),
         h q w = (inl {| fs.Exists := true |}, w1)
         /\ trace o = Interact q (inl {| fs.Exists := true |})
                      :: trace (run h tail w1)
         /\ result o = result (run h tail w1))
  \/ (exists (w1 : W) (err : error) (w2 : W),
         h q w = (inl {| fs.Exists := false |}, w1)
         /\ h m w1 = (inr err, w2)
         /\ trace o = [Interact q (inl {| fs.Exists := false |});
                       Interact m (inr err)]
         /\ result o = Some (fmt_Errorf
                               ("create of parent dir: " ++ parent
                                ++ " dailed with error: " ++ Error err)))
  \/ (exists (w1 : W) (u : unit) (w2 : W),
         h q w = (inl {| fs.Exists := false |}, w1)
         /\ h m w1 = (inl u, w2)
         /\ trace o = Interact q (inl {| fs.Exists := false |})
                      :: Interact m (inl u) :: trace (run h tail w2)
         /\ result o = result (run h tail w2)).
Proof.
  cbn zeta. rewrite SMBMount_unfold.
  set (tail := bind (resolveSource source) _).
  unfold ExistsPath, MakeDir, call. cbn [bind run].
  destruct (h (FsClient_PathExists _) w) as [[[[|]] | err] w1];
    cbn [bind run result trace final negb fs.Exists].
  - right; left. exists w1. repeat split.
  - destruct (h (FsClient_Mkdir _) w1) as [[u | err] w2] eqn:E;
      cbn [bind run result trace final].
    + do 3 right. exists w1, u, w2. repeat split; assumption.
    + do 2 right; left. exists w1, err, w2. repeat split; assumption.
  - left. exists err, w1. repeat split.
Qed.

(** ** SMBMount: the parent directory *)

(** C8. With non-empty option lists, [SMBMount] first asks whether
    [filepath.Dir(target)] (normalized) exists. If that check returns an
    error, the result is the error "parent dir: .. exist check failed with
    err: .." carrying the text of the underlying error, and nothing else is
    requested, so no directory is created. If the parent does not exist, the
    next request is a [Mkdir] of the normalized parent with the plugin
    context, and an error of that request gives the result "create of parent
    dir: .. dailed with error: .." carrying its text, with nothing requested
    after. If the parent exists, no [Mkdir] is requested at all. *)
Theorem SMBMount_parent_directory
    (Dir : string -> string) (W : Type) (h : Handler W) (w : W)
    (source target fsType username password : string)
    (mo smo : list string) :
  let parent := Dir target in
  let q := FsClient_PathExists {| fs.pe_Path := normalizeWindowsPath parent |} in
  let m := FsClient_Mkdir {| fs.mk_Path := normalizeWindowsPath parent;
                             fs.mk_Context := fs.PathContext_PLUGIN |} in
  let o := run h (SMBMount Dir source target fsType
                           (username :: mo) (password :: smo)) w in
  (exists rest : list Effect, requests o = q :: rest)
  /\ (forall (err : error) (w1 : W),
         h q w = (inr err, w1) ->
         result o = Some (fmt_Errorf
                            ("parent dir: " ++ parent
                             ++ " exist check failed with err: "
                             ++ Error err))
         /\ requests o = [q])
  /\ (forall w1 : W,
         h q w = (inl {| fs.Exists := false |}, w1) ->
         (exists rest : list Effect, requests o = q :: m :: rest)
         /\ forall (err : error) (w2 : W),
              h m w1 = (inr err, w2) ->
              result o = Some (fmt_Errorf
                                 ("create of parent dir: " ++ parent
                                  ++ " dailed with error: " ++ Error err))
              /\ requests o = [q; m])
  /\ (forall w1 : W,
         h q w = (inl {| fs.Exists := true |}, w1) ->
         forall req : fs.MkdirRequest, ~ In (FsClient_Mkdir req) (requests o)).
Proof.
  cbn zeta. unfold requests.
  destruct (run_SMBMount Dir W h w source target fsType username password
              mo smo)
    as [(err & w1 & Hq & Ht & Hr)
       | [(w1 & Hq & Ht & Hr)
         | [(w1 & err & w2 & Hq & Hm & Ht & Hr)
           | (w1 & u & w2 & Hq & Hm & Ht & Hr)]]];
    rewrite Ht, Hr; cbn [map request].
  - split; [eauto |]. split; [| split].
    + intros err' w1' H'. same_answer. split; reflexivity.
    + intros w1' H'. same_answer.
    + intros w1' H'. same_answer.
  - split; [eauto |]. split; [| split].
    + intros err' w1' H'. same_answer.
    + intros w1' H'. same_answer.
    + intros w1' H' req [Hin | Hin]; [discriminate |].
      destruct (run_resolve_then_map W h w1 source target username password)
        as (pre & s' & reply & Htail & _ & Hpre).
      cbn zeta in Htail. same_answer. rewrite Htail, map_app in Hin.
      apply in_app_or in Hin. destruct Hin as [Hin | [Hin | []]].
      * destruct Hpre as [[-> _] | (host & rest & x & _ & _ & -> & _)];
          [destruct Hin | destruct Hin as [Hin | []]; discriminate].
      * discriminate.
  - split; [eauto |]. split; [| split].
    + intros err' w1' H'. same_answer.
    + intros w1' H'. same_answer. split; [eauto |].
      intros err' w2' H'. same_answer. split; reflexivity.
    + intros w1' H'. same_answer.
  - split; [eauto |]. split; [| split].
    + intros err' w1' H'. same_answer.
    + intros w1' H'. same_answer. split; [eauto |].
      intros err' w2' H'. same_answer.
    + intros w1' H'. same_answer.
Qed.

(** The three cases on test doubles: a refusing csi-proxy, a read-only
    one, and a node where the parent exists. *)
Lemma SMBMount_parent_directory_witness :
  (result (run refusing (SMBMount sampleDir "//smb-server/share" "/new/smb"
                                  "cifs" ["user"] ["pass"]) tt)
   = Some (fmt_Errorf
             "parent dir: \new exist check failed with err: refused")
   /\ requests (run refusing (SMBMount sampleDir "//smb-server/share"
                                       "/new/smb" "cifs" ["user"] ["pass"]) tt)
      = [FsClient_PathExists {| fs.pe_Path := "c:\new" |}])
  /\ (result (run readonly (SMBMount sampleDir "//smb-server/share" "/new/smb"
                                     "cifs" ["user"] ["pass"]) tt)
      = Some (fmt_Errorf
                "create of parent dir: \new dailed with error: access denied")
      /\ requests (run readonly (SMBMount sampleDir "//smb-server/share"
                                          "/new/smb" "cifs" ["user"] ["pass"]) tt)
         = [FsClient_PathExists {| fs.pe_Path := "c:\new" |};
            FsClient_Mkdir {| fs.mk_Path := "c:\new";
                              fs.mk_Context := fs.PathContext_PLUGIN |}])
  /\ (forall req : fs.MkdirRequest,
         ~ In (FsClient_Mkdir req)
              (requests (run node (SMBMount sampleDir "//smb-server/share"
                                            "/mnt/smb" "cifs" ["user"] ["pass"])
                             node0))).
Proof.
  split; [| split].
  - apply (proj1 (proj2
             (SMBMount_parent_directory sampleDir unit refusing tt
                "//smb-server/share" "/new/smb" "cifs" "user" "pass" [] []))
             (remote "refused") tt).
    reflexivity.
  - apply (proj2 (proj1 (proj2 (proj2
             (SMBMount_parent_directory sampleDir unit readonly tt
                "//smb-server/share" "/new/smb" "cifs" "user" "pass" [] [])))
             tt eq_refl)
             (remote "access denied") tt).
    reflexivity.
  - apply (proj2 (proj2 (proj2
             (SMBMount_parent_directory sampleDir Node node node0
                "//smb-server/share" "/mnt/smb" "cifs" "user" "pass" [] [])))
             node0).
    reflexivity.
Defined.

(** ** SMBMount: when the name does not resolve *)

(** A resolver call found in a run of [SMBMount] is a call for the first
    field of the source, which ends in the cluster suffix; the run then ends
    with the mapping request, for the source the resolution step produced,
    and the answer to that request decides the result. *)
Lemma SMBMount_after_resolution
    (Dir : string -> string) (W : Type) (h : Handler W) (w : W)
    (source target fsType username password : string)
    (mo smo : list string) (host : string) (x : net.IPAddr + error) :
  let o := run h (SMBMount Dir source target fsType
                           (username :: mo) (password :: smo)) w in
  In (Interact (net_ResolveIPAddr "ip4" host) x) (trace o) ->
  exists (fields : list string) (pre : list Interaction)
         (reply : unit + error),
    strings.FieldsFunc source Split = host :: fields
    /\ strings.HasSuffix host "svc.cluster.local" = true
    /\ trace o
       = pre ++ [Interact
                   (mappingRequest
                      match x with
                      | inl ip =>
                          strings.Replace source host
                                          (net.IPAddr_String ip) 1
                      | inr _ => source
                      end
                      target username password)
                   reply]
    /\ result o = mappingResult reply.
Proof.
  cbn zeta. intro Hin.
  set (tail := s <- resolveSource source ;;
               createMapping s target username password).
  assert (Htail : forall (w1 : W) (front : list Interaction),
             (forall i, In i front -> resolution i = None) ->
             In (Interact (net_ResolveIPAddr "ip4" host) x)
                (front ++ trace (run h tail w1)) ->
             exists (fields : list string) (pre : list Interaction)
                    (reply : unit + error),
               strings.FieldsFunc source Split = host :: fields
               /\ strings.HasSuffix host "svc.cluster.local" = true
               /\ front ++ trace (run h tail w1)
                  = pre ++ [Interact
                              (mappingRequest
                                 match x with
                                 | inl ip =>
                                     strings.Replace source host
                                                     (net.IPAddr_String ip) 1
                                 | inr _ => source
                                 end
                                 target username password)
                              reply]
               /\ result (run h tail w1) = mappingResult reply).
  { intros w1 front Hfront H.
    destruct (run_resolve_then_map W h w1 source target username password)
      as (pre & s' & reply & Ht & Hr & Hpre).
    cbn zeta in Ht, Hr. fold tail in Ht, Hr. rewrite Ht in H |- *. rewrite Hr.
    apply in_app_or in H. destruct H as [H | H].
    - apply Hfront in H. discriminate H.
    - apply in_app_or in H. destruct H as [H | [H | []]];
        [| by_resolution H].
      destruct Hpre as [[-> _] | (host' & fields & x' & HF & HS & -> & ->)];
        [destruct H |].
      destruct H as [H | []]. by_resolution H.
      injection H as -> ->.
      exists fields, (front ++ [Interact (net_ResolveIPAddr "ip4" host) x]),
        reply.
      rewrite app_assoc. repeat split; assumption. }
  destruct (run_SMBMount Dir W h w source target fsType username password
              mo smo)
    as [(e & w1 & Hq & Ht & Hr)
       | [(w1 & Hq & Ht & Hr)
         | [(w1 & e & w2 & Hq & Hm & Ht & Hr)
           | (w1 & u & w2 & Hq & Hm & Ht & Hr)]]];
    cbn zeta in Ht, Hr; fold tail in Ht, Hr;
    rewrite Ht in Hin |- *; rewrite Hr.
  - destruct Hin as [H | []]. by_resolution H.
  - apply (Htail w1 [_]); [| exact Hin].
    intros i [<- | []]. reflexivity.
  - destruct Hin as [H | [H | []]]; by_resolution H.
  - apply (Htail w2 [_; _]); [| exact Hin].
    intros i [<- | [<- | []]]; reflexivity.
Qed.

(** When the first field of the source ends in the cluster suffix, the
    resolution step asks the resolver for it, and the mapping step follows
    with the source that step produced. *)
Lemma run_resolve_then_map_asked (W : Type) (h : Handler W) (w1 w2 : W)
    (source target username password host : string) (rest : list string)
    (x : net.IPAddr + error) :
  strings.FieldsFunc source Split = host :: rest ->
  strings.HasSuffix host "svc.cluster.local" = true ->
  h (net_ResolveIPAddr "ip4" host) w1 = (x, w2) ->
  let M := mappingRequest
             match x with
             | inl ip =>
                 strings.Replace source host (net.IPAddr_String ip) 1
             | inr _ => source
             end
             target username password in
  run h (s <- resolveSource source ;;
         createMapping s target username password) w1
  = {| result := mappingResult (fst (h M w2));
       trace := [Interact (net_ResolveIPAddr "ip4" host) x;
                 Interact M (fst (h M w2))];
       final := snd (h M w2) |}.
Proof.
  intros HF HS Hx. cbn zeta. rewrite run_bind. cbn zeta.
  assert (Hres : run h (resolveSource source) w1
                 = {| result := match x with
                                | inl ip =>
                                    strings.Replace source host
                                                    (net.IPAddr_String ip) 1
                                | inr _ => source
                                end;
                      trace := [Interact (net_ResolveIPAddr "ip4" host) x];
                      final := w2 |}).
  { unfold resolveSource. rewrite HF, HS. unfold call. cbn [bind run].
    rewrite Hx. destruct x; reflexivity. }
  rewrite Hres. cbn [result trace final]. rewrite run_createMapping.
  reflexivity.
Qed.

(** C4. Take a call of [SMBMount] with non-empty option lists whose source
    has a first field ending in ["svc.cluster.local"], and a helper that
    lets the parent check pass (the parent exists, or it is missing and the
    mkdir succeeds). If the resolver then answers the request for that field
    with an error, the run goes on: the next and last call is the mapping
    request, for the normalized target, the first elements of the two option
    lists, and the source as it was given (only its slashes turned, as for
    any source); the result is decided by the answer to that request alone:
    nil when the mapping is made. *)
Theorem SMBMount_resolution_failure_not_fatal
    (Dir : string -> string) (W : Type) (h : Handler W) (w : W)
    (source target fsType username password : string)
    (mo smo : list string) (host : string) (rest : list string) :
  strings.FieldsFunc source Split = host :: rest ->
  strings.HasSuffix host "svc.cluster.local" = true ->
  let q := FsClient_PathExists
             {| fs.pe_Path := normalizeWindowsPath (Dir target) |} in
  let m := FsClient_Mkdir
             {| fs.mk_Path := normalizeWindowsPath (Dir target);
                fs.mk_Context := fs.PathContext_PLUGIN |} in
  let r := net_ResolveIPAddr "ip4" host in
  let M := SMBClient_NewSmbGlobalMapping
             {| smb.LocalPath := normalizeWindowsPath target;
                smb.RemotePath := strings.Replace source "/" "\" (-1);
                smb.Username := username;
                smb.Password := password |} in
  let outcome (x : unit + error) : option error :=
    match x with
    | inl _ => None
    | inr e =>
        Some (fmt_Errorf ("smb mapping failed with error: " ++ Error e))
    end in
  let o := run h (SMBMount Dir source target fsType
                           (username :: mo) (password :: smo)) w in
  (forall (w1 : W) (err : error) (w2 : W),
      h q w = (inl {| fs.Exists := true |}, w1) ->
      h r w1 = (inr err, w2) ->
      trace o = [Interact q (inl {| fs.Exists := true |});
                 Interact r (inr err);
                 Interact M (fst (h M w2))]
      /\ result o = outcome (fst (h M w2)))
  /\ (forall (w0 : W) (u : unit) (w1 : W) (err : error) (w2 : W),
         h q w = (inl {| fs.Exists := false |}, w0) ->
         h m w0 = (inl u, w1) ->
         h r w1 = (inr err, w2) ->
         trace o = [Interact q (inl {| fs.Exists := false |});
                    Interact m (inl u);
                    Interact r (inr err);
                    Interact M (fst (h M w2))]
         /\ result o = outcome (fst (h M w2))).
Proof.
  intros HF HS. cbn zeta.
  split; intros;
    destruct (run_SMBMount Dir W h w source target fsType username password
                mo smo)
      as [(e' & w1' & Hq & Ht & Hr)
         | [(w1' & Hq & Ht & Hr)
           | [(w1' & e' & w2' & Hq & Hm & Ht & Hr)
             | (w1' & u' & w2' & Hq & Hm & Ht & Hr)]]];
    cbn zeta in Ht, Hr; same_answer;
    match goal with
    | Hx : h (net_ResolveIPAddr "ip4" host) _ = (inr _, _) |- _ =>
        rewrite (run_resolve_then_map_asked W h _ _ source target username
                   password host rest _ HF HS Hx) in Ht, Hr;
        cbn zeta in Ht, Hr; cbn [trace result] in Ht, Hr;
        rewrite Ht, Hr; split; reflexivity
    end.
Qed.

(** A name that does not resolve on the test node, with the parent
    missing: the directory is made, the resolver fails, the mapping is
    requested for the source as given and the mount succeeds. *)
Lemma SMBMount_resolution_failure_not_fatal_witness :
  (strings.FieldsFunc "//x.default.svc.cluster.local/s" Split
   = ["x.default.svc.cluster.local"; "s"]
   /\ strings.HasSuffix "x.default.svc.cluster.local" "svc.cluster.local"
      = true)
  /\ requests (run node (SMBMount sampleDir "//x.default.svc.cluster.local/s"
                                  "/new/smb" "cifs" ["user"] ["pass"]) node0)
     = [FsClient_PathExists {| fs.pe_Path := "c:\new" |};
        FsClient_Mkdir {| fs.mk_Path := "c:\new";
                          fs.mk_Context := fs.PathContext_PLUGIN |};
        net_ResolveIPAddr "ip4" "x.default.svc.cluster.local";
        SMBClient_NewSmbGlobalMapping
          {| smb.LocalPath := "c:\new\smb";
             smb.RemotePath := "\\x.default.svc.cluster.local\s";
             smb.Username := "user";
             smb.Password := "pass" |}]
  /\ result (run node (SMBMount sampleDir "//x.default.svc.cluster.local/s"
                                "/new/smb" "cifs" ["user"] ["pass"]) node0)
     = None.
Proof.
  split; [split; reflexivity |].
  destruct (proj2 (SMBMount_resolution_failure_not_fatal sampleDir Node node
                     node0 "//x.default.svc.cluster.local/s" "/new/smb" "cifs"
                     "user" "pass" [] [] "x.default.svc.cluster.local" ["s"]
                     eq_refl eq_refl)
                  node0 tt
                  {| dirs := "c:\new" :: dirs node0;
                     mountPoints := mountPoints node0;
                     mappings := mappings node0; dns := dns node0 |}
                  (remote "lookup x.default.svc.cluster.local: no such host")
                  {| dirs := "c:\new" :: dirs node0;
                     mountPoints := mountPoints node0;
                     mappings := mappings node0; dns := dns node0 |}
                  eq_refl eq_refl eq_refl)
    as [Ht Hr].
  split.
  - unfold requests. rewrite Ht. reflexivity.
  - rewrite Hr. reflexivity.
Defined.

(** ** The first field of a source and its replacement *)

Lemma prefix_empty (s : string) : String.prefix EmptyString s = true.
Proof. now destruct s. Qed.

Lemma prefix_append (a b : string) : String.prefix a (a ++ b) = true.
Proof.
  induction a as [|c a IH]; cbn; [apply prefix_empty |].
  destruct (ascii_dec c c); [assumption | congruence].
Qed.

Lemma append_assoc (a b c : string) :
  ((a ++ b) ++ c = a ++ (b ++ c))%string.
Proof. induction a as [|x a IH]; cbn; [reflexivity | now rewrite IH]. Qed.

Lemma append_empty_r (a : string) : (a ++ EmptyString)%string = a.
Proof. induction a as [|x a IH]; cbn; [reflexivity | now rewrite IH]. Qed.

Lemma append_nonempty (a : string) (c : ascii) :
  (a ++ String c EmptyString)%string <> EmptyString.
Proof. destruct a; discriminate. Qed.

Lemma allBytes_append (P : ascii -> bool) (a b : string) :
  allBytes P (a ++ b) = allBytes P a && allBytes P b.
Proof.
  induction a as [|c a IH]; cbn; [reflexivity |].
  now rewrite IH, andb_assoc.
Qed.

(** Once replacements are used up, the bytes still to step over are
    dropped and the remainder is kept as it is. *)
Lemma replaceFrom_done (old new a rest : string) :
  strings.replaceFrom old new 0 (String.length a) (a ++ rest) = rest.
Proof.
  induction a as [|c a IH]; cbn; [now destruct rest | assumption].
Qed.

(** While a field is being read, the bytes up to the next separator are
    added to it. *)
Lemma fieldsFrom_in_field (f : ascii -> bool) (s cur host : string)
    (tl : list string) :
  cur <> EmptyString ->
  allBytes (fun c => negb (f c)) cur = true ->
  strings.fieldsFrom f cur s = host :: tl ->
  exists mid rest : string,
    s = (mid ++ rest)%string /\ host = (cur ++ mid)%string
    /\ allBytes (fun c => negb (f c)) host = true.
Proof.
  revert cur; induction s as [|c s IH]; intros cur Hne Hcur H; cbn in H.
  - destruct cur as [|x cur]; [congruence |]. injection H as <- _.
    exists EmptyString, EmptyString.
    rewrite (append_empty_r (String x cur)). repeat split.
    exact Hcur.
  - destruct (f c) eqn:Efc.
    + destruct cur as [|x cur]; [congruence |]. injection H as <- _.
      exists EmptyString, (String c s).
      rewrite (append_empty_r (String x cur)). repeat split.
      exact Hcur.
    + apply IH in H; [| apply append_nonempty |].
      * destruct H as (mid & rest & -> & -> & Hall).
        exists (String c mid), rest. repeat split.
        -- rewrite append_assoc. reflexivity.
        -- exact Hall.
      * rewrite allBytes_append, Hcur. cbn. now rewrite Efc.
Qed.

(** The first field of [FieldsFunc]: separators, then the field, then the
    rest. The field is not empty and holds no separator. *)
Lemma FieldsFunc_first (f : ascii -> bool) (s host : string)
    (tl : list string) :
  strings.FieldsFunc s f = host :: tl ->
  exists seps rest : string,
    s = (seps ++ host ++ rest)%string
    /\ allBytes f seps = true
    /\ allBytes (fun c => negb (f c)) host = true
    /\ host <> EmptyString.
Proof.
  unfold strings.FieldsFunc.
  induction s as [|c s IH]; intro H; cbn in H; [discriminate |].
  destruct (f c) eqn:Efc.
  - destruct (IH H) as (seps & rest & -> & Hs & Hh & Hne).
    exists (String c seps), rest. cbn. rewrite Efc, Hs. repeat split; trivial.
  - apply fieldsFrom_in_field in H; [| discriminate | cbn; now rewrite Efc].
    destruct H as (mid & rest & -> & -> & Hall).
    exists EmptyString, rest. repeat split; [exact Hall | discriminate].
Qed.

(** Every field of [FieldsFunc] that is read first is non-empty: the
    [old] given to [strings.Replace] at line 84 is never the empty string. *)
Lemma FieldsFunc_nonempty (f : ascii -> bool) (s host : string)
    (tl : list string) :
  strings.FieldsFunc s f = host :: tl -> host <> EmptyString.
Proof.
  intro H. destruct (FieldsFunc_first f s host tl H) as (_ & _ & _ & _ & _ & Hne).
  exact Hne.
Qed.

(** Replacing one instance of the first field replaces the field itself:
    what precedes it are separators, which the field does not hold. *)
Lemma Replace_first_field (f : ascii -> bool) (seps host rest new : string) :
  allBytes f seps = true ->
  allBytes (fun c => negb (f c)) host = true ->
  host <> EmptyString ->
  strings.Replace (seps ++ host ++ rest) host new 1
  = (seps ++ new ++ rest)%string.
Proof.
  intros Hs Hh Hne. unfold strings.Replace.
  destruct host as [|x host]; [congruence |]. clear Hne.
  cbn in Hh. apply andb_true_iff in Hh. destruct Hh as [Hx _].
  induction seps as [|c seps IH].
  - change (EmptyString ++ String x host ++ rest)%string
      with (String x (host ++ rest)).
    cbn [strings.replaceFrom]. cbn [Z.eqb].
    change (String x (host ++ rest)) with (String x host ++ rest)%string.
    rewrite prefix_append.
    cbn [String.length]. rewrite Nat.sub_succ, Nat.sub_0_r.
    change (1 - 1)%Z with 0%Z. rewrite replaceFrom_done. reflexivity.
  - cbn in Hs. apply andb_true_iff in Hs. destruct Hs as [Hc Hs].
    change (String c seps ++ String x host ++ rest)%string
      with (String c (seps ++ String x host ++ rest)).
    cbn [strings.replaceFrom Z.eqb String.prefix].
    destruct (ascii_dec x c) as [-> | _].
    + rewrite Hc in Hx. discriminate.
    + rewrite (IH Hs). reflexivity.
Qed.

(** ** SMBMount: when the name resolves *)

(** C1, as the code has it. Take a call of [SMBMount] with non-empty
    option lists whose source has a first field, the host, ending in
    ["svc.cluster.local"]. The source is a run of separators (spaces and
    slashes), then the host, which holds no separator, then a remainder.
    When the helper lets the parent check pass (the parent exists, or it is
    missing and the mkdir succeeds) and the resolver answers the request for
    the host with an address, the next and last call is the mapping request,
    and its remote path is the source with the address in the place of that
    one instance of the host, the remainder kept as it is, and every slash
    turned. Instances of the host name inside the remainder are not
    replaced. *)
Theorem SMBMount_resolved_host_replaced_once
    (Dir : string -> string) (W : Type) (h : Handler W) (w : W)
    (source target fsType username password : string)
    (mo smo : list string) (host : string) (rest : list string)
    (ip : net.IPAddr) :
  strings.FieldsFunc source Split = host :: rest ->
  strings.HasSuffix host "svc.cluster.local" = true ->
  let q := FsClient_PathExists
             {| fs.pe_Path := normalizeWindowsPath (Dir target) |} in
  let m := FsClient_Mkdir
             {| fs.mk_Path := normalizeWindowsPath (Dir target);
                fs.mk_Context := fs.PathContext_PLUGIN |} in
  let r := net_ResolveIPAddr "ip4" host in
  let outcome (x : unit + error) : option error :=
    match x with
    | inl _ => None
    | inr e =>
        Some (fmt_Errorf ("smb mapping failed with error: " ++ Error e))
    end in
  let o := run h (SMBMount Dir source target fsType
                           (username :: mo) (password :: smo)) w in
  exists seps remainder : string,
    source = (seps ++ host ++ remainder)%string
    /\ allBytes Split seps = true
    /\ allBytes (fun c => negb (Split c)) host = true
    /\ let M := SMBClient_NewSmbGlobalMapping
                  {| smb.LocalPath := normalizeWindowsPath target;
                     smb.RemotePath :=
                       strings.Replace
                         (seps ++ net.IPAddr_String ip ++ remainder)
                         "/" "\" (-1);
                     smb.Username := username;
                     smb.Password := password |} in
       (forall w1 w2 : W,
           h q w = (inl {| fs.Exists := true |}, w1) ->
           h r w1 = (inl ip, w2) ->
           trace o = [Interact q (inl {| fs.Exists := true |});
                      Interact r (inl ip);
                      Interact M (fst (h M w2))]
           /\ result o = outcome (fst (h M w2)))
       /\ (forall (w0 : W) (u : unit) (w1 w2 : W),
              h q w = (inl {| fs.Exists := false |}, w0) ->
              h m w0 = (inl u, w1) ->
              h r w1 = (inl ip, w2) ->
              trace o = [Interact q (inl {| fs.Exists := false |});
                         Interact m (inl u);
                         Interact r (inl ip);
                         Interact M (fst (h M w2))]
              /\ result o = outcome (fst (h M w2))).
Proof.
  intros HF HS. cbn zeta.
  destruct (FieldsFunc_first Split source host rest HF)
    as (seps & remainder & Hsrc & Hseps & Hhost & Hne).
  subst source. exists seps, remainder.
  split; [reflexivity |]. split; [exact Hseps |]. split; [exact Hhost |].
  pose proof (Replace_first_field Split seps host remainder
                (net.IPAddr_String ip) Hseps Hhost Hne) as Hrep.
  split; intros;
    destruct (run_SMBMount Dir W h w (seps ++ host ++ remainder)%string
                target fsType username password mo smo)
      as [(e' & w1' & Hq & Ht & Hr)
         | [(w1' & Hq & Ht & Hr)
           | [(w1' & e' & w2' & Hq & Hm & Ht & Hr)
             | (w1' & u' & w2' & Hq & Hm & Ht & Hr)]]];
    cbn zeta in Ht, Hr; same_answer;
    match goal with
    | Hx : h (net_ResolveIPAddr "ip4" host) _ = (inl _, _) |- _ =>
        rewrite (run_resolve_then_map_asked W h _ _ _ target username
                   password host rest _ HF HS Hx) in Ht, Hr;
        cbn zeta in Ht, Hr; cbn [trace result] in Ht, Hr;
        unfold mappingRequest in Ht, Hr; cbn beta iota in Ht, Hr;
        rewrite Hrep in Ht, Hr;
        rewrite Ht, Hr; split; reflexivity
    end.
Qed.

(** C1, as the specification states it, fails. The host
    [smb-server.default.svc.cluster.local] is the first field of the source,
    ends in the cluster suffix and resolves to 10.0.0.4; the name occurs a
    second time in the source. The mapping request carries
    [\\10.0.0.4\share\smb-server.default.svc.cluster.local]: the second
    instance is still there (at offset 17), where replacing every instance
    would have given [\\10.0.0.4\share\10.0.0.4]. *)
Lemma SMBMount_later_occurrence_kept :
  strings.FieldsFunc sourceNamedTwice Split
  = ["smb-server.default.svc.cluster.local"; "share";
     "smb-server.default.svc.cluster.local"]
  /\ strings.HasSuffix "smb-server.default.svc.cluster.local"
                       "svc.cluster.local" = true
  /\ trace (run node (SMBMount sampleDir sourceNamedTwice "/mnt/smb" "cifs"
                               ["user"] ["pass"]) node0)
     = [Interact (FsClient_PathExists {| fs.pe_Path := "c:\mnt" |})
                 (inl {| fs.Exists := true |});
        Interact (net_ResolveIPAddr "ip4"
                    "smb-server.default.svc.cluster.local")
                 (inl {| net.IPAddr_String := "10.0.0.4" |});
        Interact (SMBClient_NewSmbGlobalMapping
                    {| smb.LocalPath := "c:\mnt\smb";
                       smb.RemotePath :=
                         "\\10.0.0.4\share\smb-server.default.svc.cluster.local";
                       smb.Username := "user";
                       smb.Password := "pass" |})
                 (inl tt)]
  /\ String.index 0 "smb-server.default.svc.cluster.local"
       "\\10.0.0.4\share\smb-server.default.svc.cluster.local" = Some 17
  /\ strings.Replace
       (strings.Replace sourceNamedTwice
          "smb-server.default.svc.cluster.local" "10.0.0.4" (-1))
       "/" "\" (-1)
     = "\\10.0.0.4\share\10.0.0.4"%string
  /\ "\\10.0.0.4\share\smb-server.default.svc.cluster.local"%string
     <> "\\10.0.0.4\share\10.0.0.4"%string.
Proof.
  repeat split; try reflexivity. discriminate.
Qed.

(** The same run, read through the theorem above: the separators are the
    two leading slashes, and the remainder, which repeats the host name, is
    carried over. *)
Lemma SMBMount_resolved_host_replaced_once_witness :
  (strings.FieldsFunc sourceNamedTwice Split
   = ["smb-server.default.svc.cluster.local"; "share";
      "smb-server.default.svc.cluster.local"]
   /\ strings.HasSuffix "smb-server.default.svc.cluster.local"
                        "svc.cluster.local" = true)
  /\ exists seps remainder : string,
       sourceNamedTwice
       = (seps ++ "smb-server.default.svc.cluster.local" ++ remainder)%string
       /\ allBytes Split seps = true
       /\ requests (run node (SMBMount sampleDir sourceNamedTwice "/mnt/smb"
                                       "cifs" ["user"] ["pass"]) node0)
          = [FsClient_PathExists
               {| fs.pe_Path := normalizeWindowsPath (sampleDir "/mnt/smb") |};
             net_ResolveIPAddr "ip4" "smb-server.default.svc.cluster.local";
             SMBClient_NewSmbGlobalMapping
               {| smb.LocalPath := normalizeWindowsPath "/mnt/smb";
                  smb.RemotePath :=
                    strings.Replace (seps ++ "10.0.0.4" ++ remainder)
                                    "/" "\" (-1);
                  smb.Username := "user";
                  smb.Password := "pass" |}].
Proof.
  split; [split; reflexivity |].
  destruct (SMBMount_resolved_host_replaced_once sampleDir Node node node0
              sourceNamedTwice "/mnt/smb" "cifs" "user" "pass" [] []
              "smb-server.default.svc.cluster.local"
              ["share"; "smb-server.default.svc.cluster.local"]
              {| net.IPAddr_String := "10.0.0.4" |} eq_refl eq_refl)
    as (seps & remainder & Hsrc & Hseps & _ & H1 & _).
  exists seps, remainder.
  split; [exact Hsrc |]. split; [exact Hseps |].
  destruct (H1 node0 node0 eq_refl eq_refl) as [Ht _].
  unfold requests. rewrite Ht. reflexivity.
Defined.

(** ** fsType, and the two ways to unmount *)

(** C9. [SMBMount] does not look at [fsType]: with any two values for it and
    everything else the same, it is the same program, so against any helper
    it makes the same calls, gets the same answers, returns the same result
    and leaves the same state. *)
Theorem SMBMount_ignores_fsType
    (Dir : string -> string) (W : Type) (h : Handler W) (w : W)
    (source target fsType1 fsType2 : string)
    (mountOptions sensitiveMountOptions : list string) :
  SMBMount Dir source target fsType1 mountOptions sensitiveMountOptions
  = SMBMount Dir source target fsType2 mountOptions sensitiveMountOptions
  /\ run h (SMBMount Dir source target fsType1
                     mountOptions sensitiveMountOptions) w
     = run h (SMBMount Dir source target fsType2
                       mountOptions sensitiveMountOptions) w.
Proof. split; reflexivity. Qed.

(** C10. For every target and every helper, [Unmount target] and
    [SMBUnmount target] run alike: same calls with the same answers, same
    result, same final state; the one call each makes is the [Rmdir] of the
    normalized target with the pod context and [Force = true]. *)
Theorem Unmount_same_as_SMBUnmount
    (W : Type) (h : Handler W) (w : W) (target : string) :
  let e := FsClient_Rmdir {| fs.rm_Path := normalizeWindowsPath target;
                             fs.rm_Context := fs.PathContext_POD;
                             fs.rm_Force := true |} in
  run h (Unmount target) w = run h (SMBUnmount target) w
  /\ requests (run h (Unmount target) w) = [e]
  /\ requests (run h (SMBUnmount target) w) = [e]
  /\ result (run h (Unmount target) w)
     = match fst (h e w) with inl _ => None | inr err => Some err end.
Proof.
  cbn zeta. unfold Unmount, SMBUnmount. rewrite run_Rmdir. repeat split.
Qed.

(** * Further properties of the file *)

(** ** normalizeWindowsPath *)

Lemma allBytes_mapBytes_toBackslash (s : string) :
  noSlash (mapBytes toBackslash s) = true.
Proof.
  unfold noSlash. induction s as [|c s IH]; cbn; [reflexivity |].
  rewrite IH, andb_true_r. unfold toBackslash.
  destruct (Ascii.eqb c "/") eqn:E; [reflexivity | now rewrite E].
Qed.

Lemma mapBytes_toBackslash_noSlash (s : string) :
  noSlash s = true -> mapBytes toBackslash s = s.
Proof.
  unfold noSlash. induction s as [|c s IH]; cbn; [reflexivity |].
  intro H. apply andb_true_iff in H. destruct H as [Hc Hs].
  rewrite (IH Hs). unfold toBackslash.
  destruct (Ascii.eqb c "/"); [discriminate | reflexivity].
Qed.

Lemma normalizeWindowsPath_idem (p : string) :
  normalizeWindowsPath (normalizeWindowsPath p) = normalizeWindowsPath p.
Proof.
  rewrite (normalizeWindowsPath_unfold p).
  destruct (String.prefix "\" (mapBytes toBackslash p)) eqn:E.
  - rewrite normalizeWindowsPath_unfold.
    change (mapBytes toBackslash ("c:" ++ mapBytes toBackslash p))
      with ("c:" ++ mapBytes toBackslash (mapBytes toBackslash p))%string.
    rewrite mapBytes_toBackslash_idem. reflexivity.
  - rewrite normalizeWindowsPath_unfold, mapBytes_toBackslash_idem, E.
    reflexivity.
Qed.

Lemma normalizeWindowsPath_noSlash (p : string) :
  noSlash (normalizeWindowsPath p) = true
  /\ String.prefix "\" (normalizeWindowsPath p) = false.
Proof.
  rewrite normalizeWindowsPath_unfold.
  destruct (String.prefix "\" (mapBytes toBackslash p)) eqn:E.
  - split; [| reflexivity].
    change (noSlash ("c:" ++ mapBytes toBackslash p))
      with (noSlash (mapBytes toBackslash p)).
    apply allBytes_mapBytes_toBackslash.
  - split; [apply allBytes_mapBytes_toBackslash | exact E].
Qed.

(** X1. A normalized path holds no forward slash and does not begin with a
    backslash, whatever the path given. *)
Theorem normalizeWindowsPath_clean (p : string) :
  noSlash (normalizeWindowsPath p) = true
  /\ String.prefix "\" (normalizeWindowsPath p) = false.
Proof. apply normalizeWindowsPath_noSlash. Qed.

(** X2. The paths that normalization leaves as they are are exactly those
    with no forward slash and no backslash in front. *)
Theorem normalizeWindowsPath_fixed_iff (p : string) :
  normalizeWindowsPath p = p
  <-> noSlash p = true /\ String.prefix "\" p = false.
Proof.
  split.
  - intro H. rewrite <- H. apply normalizeWindowsPath_noSlash.
  - intros [Hs Hp]. rewrite normalizeWindowsPath_unfold.
    rewrite (mapBytes_toBackslash_noSlash p Hs), Hp. reflexivity.
Qed.

(** A path with a drive and backslashes is kept as it is. *)
Lemma normalizeWindowsPath_fixed_iff_witness :
  (noSlash "c:\var\lib\kubelet" = true
   /\ String.prefix "\" "c:\var\lib\kubelet" = false)
  /\ normalizeWindowsPath "c:\var\lib\kubelet" = "c:\var\lib\kubelet"%string.
Proof.
  split; [split; reflexivity |].
  apply (proj2 (normalizeWindowsPath_fixed_iff "c:\var\lib\kubelet")).
  split; reflexivity.
Defined.

Lemma length_mapBytes (f : ascii -> ascii) (s : string) :
  String.length (mapBytes f s) = String.length s.
Proof. induction s as [|c s IH]; cbn; [reflexivity | now rewrite IH]. Qed.

Lemma prefix_single (a c : ascii) (s : string) :
  String.prefix (String a EmptyString) (String c s) = Ascii.eqb a c.
Proof.
  cbn [String.prefix]. destruct (ascii_dec a c) as [-> | Hn].
  - now rewrite prefix_empty, Ascii.eqb_refl.
  - symmetry. now apply Ascii.eqb_neq.
Qed.

Lemma prefix_cancel (a b m : string) :
  String.prefix (a ++ b) (a ++ m) = String.prefix b m.
Proof.
  induction a as [|c a IH]; [reflexivity |].
  cbn [String.append String.prefix].
  destruct (ascii_dec c c); [exact IH | congruence].
Qed.

Lemma prefix_backslash_mapBytes (p : string) :
  String.prefix "\" (mapBytes toBackslash p) = rooted p.
Proof.
  unfold rooted. destruct p as [|c p]; [reflexivity |].
  cbn [mapBytes]. rewrite !prefix_single. unfold toBackslash.
  destruct (Ascii.eqb_spec c "/") as [-> | Hc]; [reflexivity |].
  rewrite (Ascii.eqb_sym "/" c).
  destruct (Ascii.eqb_spec c "/"); [congruence | reflexivity].
Qed.

(** X3. The drive ["c:"] is put in front exactly when the path begins with
    a slash or a backslash: then the normalized path begins with ["c:\"]
    and is two bytes longer than the path; otherwise it has the length of
    the path. *)
Theorem normalizeWindowsPath_drive (p : string) :
  (rooted p = true ->
   String.prefix "c:\" (normalizeWindowsPath p) = true
   /\ String.length (normalizeWindowsPath p) = 2 + String.length p)
  /\ (rooted p = false ->
      String.length (normalizeWindowsPath p) = String.length p
      /\ forall i : nat,
           get i (normalizeWindowsPath p) = option_map toBackslash (get i p)).
Proof.
  rewrite normalizeWindowsPath_unfold.
  pose proof (prefix_backslash_mapBytes p) as H.
  split; intro R; rewrite R in H; rewrite H.
  - split; [| cbn; now rewrite length_mapBytes].
    change "c:\"%string with ("c:" ++ "\")%string.
    rewrite prefix_cancel. exact H.
  - split; [apply length_mapBytes | intro i; apply get_mapBytes].
Qed.

(** A path from the root, and a path with a drive. *)
Lemma normalizeWindowsPath_drive_witness :
  (rooted "/var/lib/kubelet" = true
   /\ String.prefix "c:\" (normalizeWindowsPath "/var/lib/kubelet") = true
   /\ String.length (normalizeWindowsPath "/var/lib/kubelet") = 18)
  /\ (rooted "d:/data" = false
      /\ String.length (normalizeWindowsPath "d:/data") = 7).
Proof.
  split.
  - split; [reflexivity |].
    apply (proj1 (normalizeWindowsPath_drive "/var/lib/kubelet")).
    reflexivity.
  - split; [reflexivity |].
    apply (proj2 (normalizeWindowsPath_drive "d:/data")). reflexivity.
Defined.

(** ** Paths given to the methods *)

(** X4. Giving a method a path that is already normalized changes nothing:
    [ExistsPath], [MakeDir], [Rmdir], [Unmount], [SMBUnmount],
    [IsLikelyNotMountPoint] and [Mount] are the same programs on
    [normalizeWindowsPath p] as on [p]. So paths that differ only in the
    direction of their slashes, or in a leading ["c:"] before a root, are
    served alike. *)
Theorem methods_on_normalized_path
    (p source target fstype : string) (options : list string) :
  ExistsPath (normalizeWindowsPath p) = ExistsPath p
  /\ MakeDir (normalizeWindowsPath p) = MakeDir p
  /\ Rmdir (normalizeWindowsPath p) = Rmdir p
  /\ Unmount (normalizeWindowsPath p) = Unmount p
  /\ SMBUnmount (normalizeWindowsPath p) = SMBUnmount p
  /\ IsLikelyNotMountPoint (normalizeWindowsPath p) = IsLikelyNotMountPoint p
  /\ Mount (normalizeWindowsPath source) (normalizeWindowsPath target)
           fstype options
     = Mount source target fstype options.
Proof.
  unfold Unmount, SMBUnmount, IsLikelyNotMountPoint, Mount, Rmdir, MakeDir,
    ExistsPath.
  rewrite !normalizeWindowsPath_idem. repeat split.
Qed.

(** ** The single-call methods *)

(** X5. [Mount] makes exactly one call, [LinkPath] with the normalized
    source and target; it returns that call's error as it is (nil on
    success); [fstype] and [options] play no part; neither the SMB client
    nor the resolver is contacted. *)
Theorem Mount_one_link
    (W : Type) (h : Handler W) (w : W)
    (source target fstype : string) (options : list string) :
  let e := FsClient_LinkPath
             {| fs.SourcePath := normalizeWindowsPath source;
                fs.TargetPath := normalizeWindowsPath target |} in
  run h (Mount source target fstype options) w
  = {| result := match fst (h e w) with
                 | inl _ => None
                 | inr err => Some err
                 end;
       trace := [Interact e (fst (h e w))];
       final := snd (h e w) |}.
Proof.
  cbn zeta. unfold Mount, call. cbn [bind run].
  destruct (h _ w) as [[u | err] w1]; reflexivity.
Qed.

(** X6. [MakeDir] makes exactly one call, [Mkdir] of the normalized path
    with the plugin context, and returns that call's error as it is.
    [ExistsPath] makes exactly one call, [PathExists] of the normalized
    path; on an error it answers [false] together with that error, and
    otherwise the helper's answer with no error. *)
Theorem MakeDir_ExistsPath_one_call
    (W : Type) (h : Handler W) (w : W) (path : string) :
  let m := FsClient_Mkdir {| fs.mk_Path := normalizeWindowsPath path;
                             fs.mk_Context := fs.PathContext_PLUGIN |} in
  let q := FsClient_PathExists {| fs.pe_Path := normalizeWindowsPath path |} in
  run h (MakeDir path) w
  = {| result := match fst (h m w) with
                 | inl _ => None
                 | inr err => Some err
                 end;
       trace := [Interact m (fst (h m w))];
       final := snd (h m w) |}
  /\ run h (ExistsPath path) w
     = {| result := match fst (h q w) with
                    | inl response => (fs.Exists response, None)
                    | inr err => (false, Some err)
                    end;
          trace := [Interact q (fst (h q w))];
          final := snd (h q w) |}.
Proof.
  cbn zeta. unfold MakeDir, ExistsPath, call. cbn [bind run]. split.
  - destruct (h _ w) as [[u | err] w1]; reflexivity.
  - destruct (h _ w) as [[r | err] w1]; reflexivity.
Qed.

(** ** IsLikelyNotMountPoint *)

Lemma run_IsLikelyNotMountPoint (W : Type) (h : Handler W) (w : W)
    (path : string) :
  let q := FsClient_PathExists {| fs.pe_Path := normalizeWindowsPath path |} in
  let m := FsClient_IsMountPoint {| fs.mp_Path := normalizeWindowsPath path |} in
  let o := run h (IsLikelyNotMountPoint path) w in
  (exists (err : error) (w1 : W),
      h q w = (inr err, w1)
      /\ o = {| result := (false, Some err);
                trace := [Interact q (inr err)]; final := w1 |})
  \/ (exists w1 : W,
         h q w = (inl {| fs.Exists := false |}, w1)
         /\ o = {| result := (true, Some os_ErrNotExist);
                   trace := [Interact q (inl {| fs.Exists := false |})];
                   final := w1 |})
  \/ (exists (w1 : W) (err : error) (w2 : W),
         h q w = (inl {| fs.Exists := true |}, w1)
         /\ h m w1 = (inr err, w2)
         /\ o = {| result := (false, Some err);
                   trace := [Interact q (inl {| fs.Exists := true |});
                             Interact m (inr err)];
                   final := w2 |})
  \/ (exists (w1 : W) (b : bool) (w2 : W),
         h q w = (inl {| fs.Exists := true |}, w1)
         /\ h m w1 = (inl {| fs.IsMountPoint := b |}, w2)
         /\ o = {| result := (negb b, None);
                   trace := [Interact q (inl {| fs.Exists := true |});
                             Interact m (inl {| fs.IsMountPoint := b |})];
                   final := w2 |}).
Proof.
  cbn zeta. unfold IsLikelyNotMountPoint, ExistsPath, call. cbn [bind run].
  destruct (h (FsClient_PathExists _) w) as [[[[|]] | err] w1];
    cbn [bind run result trace final negb fs.Exists].
  - destruct (h (FsClient_IsMountPoint _) w1) as [[[b] | err] w2] eqn:E;
      cbn [bind run result trace final fs.IsMountPoint].
    + do 3 right. exists w1, b, w2. repeat split; assumption.
    + do 2 right; left. exists w1, err, w2. repeat split; assumption.
  - right; left. exists w1. repeat split.
  - left. exists err, w1. repeat split.
Qed.

(** X7. Errors of [IsLikelyNotMountPoint]. When the existence check
    returns an error, the result is [(false, that error)] and no mount
    point question is asked. When the path exists and the mount point
    question returns an error, the result is [(false, that error)]. *)
Theorem IsLikelyNotMountPoint_errors
    (W : Type) (h : Handler W) (w : W) (path : string) :
  let q := FsClient_PathExists {| fs.pe_Path := normalizeWindowsPath path |} in
  let m := FsClient_IsMountPoint {| fs.mp_Path := normalizeWindowsPath path |} in
  let o := run h (IsLikelyNotMountPoint path) w in
  (forall (err : error) (w1 : W),
      h q w = (inr err, w1) ->
      result o = (false, Some err) /\ requests o = [q])
  /\ (forall (w1 : W) (err : error) (w2 : W),
         h q w = (inl {| fs.Exists := true |}, w1) ->
         h m w1 = (inr err, w2) ->
         result o = (false, Some err) /\ requests o = [q; m]).
Proof.
  cbn zeta.
  destruct (run_IsLikelyNotMountPoint W h w path)
    as [(e & w1 & Hq & ->)
       | [(w1 & Hq & ->)
         | [(w1 & e & w2 & Hq & Hm & ->)
           | (w1 & b & w2 & Hq & Hm & ->)]]];
    split; intros; same_answer; split; reflexivity.
Qed.

(** A refused existence check, and a refused mount point question. *)
Lemma IsLikelyNotMountPoint_errors_witness :
  result (run refusing (IsLikelyNotMountPoint "/mnt/smb") tt)
  = (false, Some (remote "refused"))
  /\ result (run mapDenied (IsLikelyNotMountPoint "/mnt/smb") tt)
     = (false, Some (remote "access denied")).
Proof.
  split.
  - apply (proj1 (IsLikelyNotMountPoint_errors unit refusing tt "/mnt/smb")
             (remote "refused") tt).
    reflexivity.
  - apply (proj2 (IsLikelyNotMountPoint_errors unit mapDenied tt "/mnt/smb")
             tt (remote "access denied") tt); reflexivity.
Defined.

(** X8. [IsLikelyNotMountPoint] only asks: its calls are the existence
    check alone, or the existence check followed by the mount point
    question, both for the same normalized path. Nothing is created,
    removed, linked or mapped. *)
Theorem IsLikelyNotMountPoint_only_asks
    (W : Type) (h : Handler W) (w : W) (path : string) :
  let q := FsClient_PathExists {| fs.pe_Path := normalizeWindowsPath path |} in
  let m := FsClient_IsMountPoint {| fs.mp_Path := normalizeWindowsPath path |} in
  let o := run h (IsLikelyNotMountPoint path) w in
  requests o = [q] \/ requests o = [q; m].
Proof.
  cbn zeta.
  destruct (run_IsLikelyNotMountPoint W h w path)
    as [(e & w1 & Hq & ->)
       | [(w1 & Hq & ->)
         | [(w1 & e & w2 & Hq & Hm & ->)
           | (w1 & b & w2 & Hq & Hm & ->)]]];
    [left | left | right | right]; reflexivity.
Qed.

(** X9. What a result of [IsLikelyNotMountPoint] tells. A result
    [(b, nil)] is returned only when csi-proxy answered that the path
    exists and then that it is a mount point exactly when [b] is false. A
    result [(true, err)] with an error is returned only when csi-proxy
    answered that the path does not exist, and the error is then
    [os.ErrNotExist]. *)
Theorem IsLikelyNotMountPoint_result_meaning
    (W : Type) (h : Handler W) (w : W) (path : string) :
  let q := FsClient_PathExists {| fs.pe_Path := normalizeWindowsPath path |} in
  let m := FsClient_IsMountPoint {| fs.mp_Path := normalizeWindowsPath path |} in
  let o := run h (IsLikelyNotMountPoint path) w in
  (forall b : bool,
      result o = (b, None) ->
      exists w1 w2 : W,
        h q w = (inl {| fs.Exists := true |}, w1)
        /\ h m w1 = (inl {| fs.IsMountPoint := negb b |}, w2))
  /\ (forall err : error,
         result o = (true, Some err) ->
         err = os_ErrNotExist
         /\ exists w1 : W, h q w = (inl {| fs.Exists := false |}, w1)).
Proof.
  cbn zeta.
  destruct (run_IsLikelyNotMountPoint W h w path)
    as [(e & w1 & Hq & ->)
       | [(w1 & Hq & ->)
         | [(w1 & e & w2 & Hq & Hm & ->)
           | (w1 & b' & w2 & Hq & Hm & ->)]]];
    cbn [result]; split; intros x Hx; try discriminate Hx.
  - injection Hx as <-. split; [reflexivity | eauto].
  - injection Hx as <-. rewrite negb_involutive. eauto.
Qed.

(** On the test node [c:\mnt\old] is reported as a mount point and
    [c:\mnt\none] as missing. *)
Lemma IsLikelyNotMountPoint_result_meaning_witness :
  (exists w1 w2 : Node,
      node (FsClient_PathExists
              {| fs.pe_Path := normalizeWindowsPath "/mnt/old" |}) node0
      = (inl {| fs.Exists := true |}, w1)
      /\ node (FsClient_IsMountPoint
                 {| fs.mp_Path := normalizeWindowsPath "/mnt/old" |}) w1
         = (inl {| fs.IsMountPoint := negb false |}, w2))
  /\ (os_ErrNotExist = os_ErrNotExist
      /\ exists w1 : Node,
           node (FsClient_PathExists
                   {| fs.pe_Path := normalizeWindowsPath "/mnt/none" |}) node0
           = (inl {| fs.Exists := false |}, w1)).
Proof.
  split.
  - apply (proj1 (IsLikelyNotMountPoint_result_meaning Node node node0
                    "/mnt/old") false).
    reflexivity.
  - apply (proj2 (IsLikelyNotMountPoint_result_meaning Node node node0
                    "/mnt/none") os_ErrNotExist).
    reflexivity.
Defined.


(** ** SMBMount: every run *)

Lemma run_resolveSource_cases (W : Type) (h : Handler W) (w : W)
    (source : string) :
  let o := run h (resolveSource source) w in
  (trace o = [] /\ result o = source /\ final o = w
   /\ forall (host : string) (rest : list string),
        strings.FieldsFunc source Split = host :: rest ->
        strings.HasSuffix host "svc.cluster.local" = false)
  \/ (exists (host : string) (rest : list string),
         strings.FieldsFunc source Split = host :: rest
         /\ strings.HasSuffix host "svc.cluster.local" = true
         /\ let r := net_ResolveIPAddr "ip4" host in
            trace o = [Interact r (fst (h r w))]
            /\ final o = snd (h r w)
            /\ result o
               = match fst (h r w) with
                 | inl ip =>
                     strings.Replace source host (net.IPAddr_String ip) 1
                 | inr _ => source
                 end).
Proof.
  cbn zeta. unfold resolveSource.
  destruct (strings.FieldsFunc source Split) as [|host rest].
  { left. repeat split. intros ? ? H. discriminate H. }
  destruct (strings.HasSuffix host "svc.cluster.local") eqn:E.
  - right. exists host, rest. repeat split; trivial;
      unfold call; cbn [bind run];
      destruct (h _ w) as [[ip | err] w1]; reflexivity.
  - left. repeat split. intros ? ? H. injection H as <- _. exact E.
Qed.

(** Every run of [SMBMount] with non-empty options: the two early
    failures, or a front (the existence check, and the mkdir when the
    parent was missing), at most one resolver call, and the mapping
    request. *)
Lemma SMBMount_trace_cases
    (Dir : string -> string) (W : Type) (h : Handler W) (w : W)
    (source target fsType username password : string)
    (mo smo : list string) :
  let parent := Dir target in
  let q := FsClient_PathExists {| fs.pe_Path := normalizeWindowsPath parent |} in
  let m := FsClient_Mkdir {| fs.mk_Path := normalizeWindowsPath parent;
                             fs.mk_Context := fs.PathContext_PLUGIN |} in
  let o := run h (SMBMount Dir source target fsType
                           (username :: mo) (password :: smo)) w in
  (exists err : error,
      trace o = [Interact q (inr err)]
      /\ result o = Some (fmt_Errorf
                            ("parent dir: " ++ parent
                             ++ " exist check failed with err: "
                             ++ Error err)))
  \/ (exists err : error,
         trace o = [Interact q (inl {| fs.Exists := false |});
                    Interact m (inr err)]
         /\ result o = Some (fmt_Errorf
                               ("create of parent dir: " ++ parent
                                ++ " dailed with error: " ++ Error err)))
  \/ (exists (front pre : list Interaction) (s' : string)
             (reply : unit + error),
         (front = [Interact q (inl {| fs.Exists := true |})]
          \/ exists u : unit,
               front = [Interact q (inl {| fs.Exists := false |});
                        Interact m (inl u)])
         /\ ((pre = [] /\ s' = source
              /\ forall (host : string) (rest : list string),
                   strings.FieldsFunc source Split = host :: rest ->
                   strings.HasSuffix host "svc.cluster.local" = false)
             \/ exists (host : string) (rest : list string)
                       (x : net.IPAddr + error),
                  strings.FieldsFunc source Split = host :: rest
                  /\ strings.HasSuffix host "svc.cluster.local" = true
                  /\ pre = [Interact (net_ResolveIPAddr "ip4" host) x]
                  /\ s' = match x with
                          | inl ip =>
                              strings.Replace source host
                                              (net.IPAddr_String ip) 1
                          | inr _ => source
                          end)
         /\ trace o
            = front ++ pre
              ++ [Interact (mappingRequest s' target username password)
                           reply]
         /\ result o = mappingResult reply).
Proof.
  cbn zeta.
  assert (Htail : forall w1 : W,
             exists (pre : list Interaction) (s' : string)
                    (reply : unit + error),
               ((pre = [] /\ s' = source
                 /\ forall (host : string) (rest : list string),
                      strings.FieldsFunc source Split = host :: rest ->
                      strings.HasSuffix host "svc.cluster.local" = false)
                \/ exists (host : string) (rest : list string)
                          (x : net.IPAddr + error),
                     strings.FieldsFunc source Split = host :: rest
                     /\ strings.HasSuffix host "svc.cluster.local" = true
                     /\ pre = [Interact (net_ResolveIPAddr "ip4" host) x]
                     /\ s' = match x with
                             | inl ip =>
                                 strings.Replace source host
                                                 (net.IPAddr_String ip) 1
                             | inr _ => source
                             end)
               /\ trace (run h (s <- resolveSource source ;;
                                createMapping s target username password) w1)
                  = pre ++ [Interact (mappingRequest s' target username
                                                     password) reply]
               /\ result (run h (s <- resolveSource source ;;
                                 createMapping s target username password)
                              w1)
                  = mappingResult reply).
  { intro w1. rewrite run_bind. cbn zeta. cbn [result trace final].
    rewrite run_createMapping. cbn [result trace final].
    destruct (run_resolveSource_cases W h w1 source)
      as [(Ht & Hr & Hf & Hno) | (host & rest & HF & HS & Ht & Hf & Hr)];
      rewrite Ht, Hr, Hf.
    - eexists [], source, _. split; [left; auto | split; reflexivity].
    - eexists [_], _, _. split; [| split; reflexivity].
      right. exists host, rest, (fst (h (net_ResolveIPAddr "ip4" host) w1)).
      repeat split; assumption. }
  destruct (run_SMBMount Dir W h w source target fsType username password
              mo smo)
    as [(e & w1 & Hq & Ht & Hr)
       | [(w1 & Hq & Ht & Hr)
         | [(w1 & e & w2 & Hq & Hm & Ht & Hr)
           | (w1 & u & w2 & Hq & Hm & Ht & Hr)]]].
  - left. exists e. split; assumption.
  - do 2 right. destruct (Htail w1) as (pre & s' & reply & Hpre & Htr & Hres).
    eexists _, pre, s', reply.
    split; [left; reflexivity |]. split; [exact Hpre |].
    rewrite Ht, Hr, Htr, Hres. split; reflexivity.
  - right; left. exists e. split; assumption.
  - do 2 right. destruct (Htail w2) as (pre & s' & reply & Hpre & Htr & Hres).
    eexists _, pre, s', reply.
    split; [right; exists u; reflexivity |]. split; [exact Hpre |].
    rewrite Ht, Hr, Htr, Hres. split; reflexivity.
Qed.

(** With an empty option list nothing is called. *)
Lemma SMBMount_empty_run
    (Dir : string -> string) (W : Type) (h : Handler W) (w : W)
    (source target fsType : string)
    (mountOptions sensitiveMountOptions : list string) :
  mountOptions = [] \/ sensitiveMountOptions = [] ->
  let o := run h (SMBMount Dir source target fsType
                           mountOptions sensitiveMountOptions) w in
  trace o = []
  /\ result o
     = Some (fmt_Errorf
               ("empty mountOptions(len: " ++ itoa (List.length mountOptions)
                ++ ") or sensitiveMountOptions(len: "
                ++ itoa (List.length sensitiveMountOptions)
                ++ ") is not allowed")).
Proof.
  intros [-> | ->]; cbn zeta.
  - split; reflexivity.
  - destruct mountOptions; split; reflexivity.
Qed.

Lemma options_cases (mountOptions sensitiveMountOptions : list string) :
  (mountOptions = [] \/ sensitiveMountOptions = [])
  \/ exists (username password : string) (mo smo : list string),
       mountOptions = username :: mo
       /\ sensitiveMountOptions = password :: smo.
Proof.
  destruct mountOptions as [|u mo]; [left; left; reflexivity |].
  destruct sensitiveMountOptions as [|p smo]; [left; right; reflexivity |].
  right. exists u, p, mo, smo. split; reflexivity.
Qed.

(** Splits a membership in a list of known shape into its cases. *)
Ltac in_cases H :=
  cbn [map app In request] in H;
  repeat match type of H with
         | _ \/ _ => destruct H as [H | H]
         | False => destruct H
         | In _ (_ ++ _) => apply in_app_or in H
         end.

(** Reads an equation between interactions through [mappingReply]. *)
Ltac by_mappingReply H :=
  apply (f_equal mappingReply) in H; cbn [mappingReply mappingRequest] in H;
  try discriminate H.

(** The calls of the resolution and mapping steps: the resolver exactly
    when the first field of the source ends in the cluster suffix, then the
    mapping request. *)
Lemma resolve_then_map_requests (W : Type) (h : Handler W) (w1 : W)
    (source target username password : string) :
  exists (r : list Effect) (s' : string),
    ((r = [] /\ s' = source
      /\ forall (host : string) (rest : list string),
           strings.FieldsFunc source Split = host :: rest ->
           strings.HasSuffix host "svc.cluster.local" = false)
     \/ exists (host : string) (rest : list string),
          strings.FieldsFunc source Split = host :: rest
          /\ strings.HasSuffix host "svc.cluster.local" = true
          /\ r = [net_ResolveIPAddr "ip4" host])
    /\ requests (run h (s <- resolveSource source ;;
                        createMapping s target username password) w1)
       = r ++ [mappingRequest s' target username password].
Proof.
  unfold requests. rewrite run_bind. cbn zeta. cbn [result trace final].
  rewrite run_createMapping. cbn [result trace final].
  destruct (run_resolveSource_cases W h w1 source)
    as [(Ht & Hr & Hf & Hno) | (host & rest & HF & HS & Ht & Hf & Hr)];
    rewrite Ht, Hr, Hf.
  - exists [], source. split; [left; auto | reflexivity].
  - eexists [net_ResolveIPAddr "ip4" host], _.
    split; [right; exists host, rest; auto | reflexivity].
Qed.

(** X11. The calls of [SMBMount] with non-empty options, by the answers of
    the helper. An error of the existence check: that check alone. The
    parent exists: the check, then the resolver and the mapping request,
    with no mkdir. The parent is missing and the mkdir fails: the check and
    the mkdir. The parent is missing and the mkdir succeeds: the check, the
    mkdir, then the resolver and the mapping request. The resolver is
    called, once, for ["ip4"] and the first field of the source, exactly
    when that field ends in the cluster suffix. So there are at most four
    calls, and never an [Rmdir], an [IsMountPoint] or a [LinkPath]. *)
Theorem SMBMount_request_sequences
    (Dir : string -> string) (W : Type) (h : Handler W) (w : W)
    (source target fsType username password : string)
    (mo smo : list string) :
  let parent := Dir target in
  let q := FsClient_PathExists {| fs.pe_Path := normalizeWindowsPath parent |} in
  let m := FsClient_Mkdir {| fs.mk_Path := normalizeWindowsPath parent;
                             fs.mk_Context := fs.PathContext_PLUGIN |} in
  let o := run h (SMBMount Dir source target fsType
                           (username :: mo) (password :: smo)) w in
  exists (r : list Effect) (s' : string),
    ((r = []
      /\ forall (host : string) (rest : list string),
           strings.FieldsFunc source Split = host :: rest ->
           strings.HasSuffix host "svc.cluster.local" = false)
     \/ exists (host : string) (rest : list string),
          strings.FieldsFunc source Split = host :: rest
          /\ strings.HasSuffix host "svc.cluster.local" = true
          /\ r = [net_ResolveIPAddr "ip4" host])
    /\ (let M := SMBClient_NewSmbGlobalMapping
                   {| smb.LocalPath := normalizeWindowsPath target;
                      smb.RemotePath := strings.Replace s' "/" "\" (-1);
                      smb.Username := username;
                      smb.Password := password |} in
        (exists (err : error) (w1 : W),
            h q w = (inr err, w1) /\ requests o = [q])
        \/ (exists w1 : W,
               h q w = (inl {| fs.Exists := true |}, w1)
               /\ requests o = q :: r ++ [M])
        \/ (exists (w1 : W) (err : error) (w2 : W),
               h q w = (inl {| fs.Exists := false |}, w1)
               /\ h m w1 = (inr err, w2)
               /\ requests o = [q; m])
        \/ (exists (w1 : W) (u : unit) (w2 : W),
               h q w = (inl {| fs.Exists := false |}, w1)
               /\ h m w1 = (inl u, w2)
               /\ requests o = q :: m :: r ++ [M]))
    /\ List.length (requests o) <= 4.
Proof.
  cbn zeta.
  assert (Hlen : forall (r : list Effect) (s' : string),
             ((r = []
               /\ forall (host : string) (rest : list string),
                    strings.FieldsFunc source Split = host :: rest ->
                    strings.HasSuffix host "svc.cluster.local" = false)
              \/ exists (host : string) (rest : list string),
                   strings.FieldsFunc source Split = host :: rest
                   /\ strings.HasSuffix host "svc.cluster.local" = true
                   /\ r = [net_ResolveIPAddr "ip4" host]) ->
             List.length r <= 1).
  { intros r s' [[-> _] | (host & rest & _ & _ & ->)]; cbn; lia. }
  assert (Hweak : forall (r : list Effect) (s' : string),
             ((r = [] /\ s' = source
               /\ forall (host : string) (rest : list string),
                    strings.FieldsFunc source Split = host :: rest ->
                    strings.HasSuffix host "svc.cluster.local" = false)
              \/ exists (host : string) (rest : list string),
                   strings.FieldsFunc source Split = host :: rest
                   /\ strings.HasSuffix host "svc.cluster.local" = true
                   /\ r = [net_ResolveIPAddr "ip4" host]) ->
             (r = []
              /\ forall (host : string) (rest : list string),
                   strings.FieldsFunc source Split = host :: rest ->
                   strings.HasSuffix host "svc.cluster.local" = false)
             \/ exists (host : string) (rest : list string),
                  strings.FieldsFunc source Split = host :: rest
                  /\ strings.HasSuffix host "svc.cluster.local" = true
                  /\ r = [net_ResolveIPAddr "ip4" host]).
  { intros r s' [(-> & _ & Hno) | H]; [left; auto | right; exact H]. }
  destruct (run_SMBMount Dir W h w source target fsType username password
              mo smo)
    as [(e & w1 & Hq & Ht & _)
       | [(w1 & Hq & Ht & _)
         | [(w1 & e & w2 & Hq & Hm & Ht & _)
           | (w1 & u & w2 & Hq & Hm & Ht & _)]]];
    cbn zeta in Ht.
  - destruct (resolve_then_map_requests W h w source target username password)
      as (r & s' & Hr & _).
    exists r, s'. split; [exact (Hweak r s' Hr) |].
    unfold requests. rewrite Ht. split; [| cbn; lia].
    left. exists e, w1. split; [exact Hq | reflexivity].
  - destruct (resolve_then_map_requests W h w1 source target username
                password) as (r & s' & Hr & Hreq).
    exists r, s'. split; [exact (Hweak r s' Hr) |].
    assert (Hall : requests
                     (run h (SMBMount Dir source target fsType
                                      (username :: mo) (password :: smo)) w)
                   = FsClient_PathExists
                       {| fs.pe_Path := normalizeWindowsPath (Dir target) |}
                     :: r ++ [mappingRequest s' target username password]).
    { unfold requests in Hreq |- *. rewrite Ht. cbn [map request].
      rewrite Hreq. reflexivity. }
    split.
    + right; left. exists w1. split; [exact Hq | exact Hall].
    + rewrite Hall. cbn [List.length]. rewrite length_app. cbn.
      pose proof (Hlen r s' (Hweak r s' Hr)). lia.
  - destruct (resolve_then_map_requests W h w source target username password)
      as (r & s' & Hr & _).
    exists r, s'. split; [exact (Hweak r s' Hr) |].
    unfold requests. rewrite Ht. split; [| cbn; lia].
    do 2 right; left. exists w1, e, w2. repeat split; assumption.
  - destruct (resolve_then_map_requests W h w2 source target username
                password) as (r & s' & Hr & Hreq).
    exists r, s'. split; [exact (Hweak r s' Hr) |].
    assert (Hall : requests
                     (run h (SMBMount Dir source target fsType
                                      (username :: mo) (password :: smo)) w)
                   = FsClient_PathExists
                       {| fs.pe_Path := normalizeWindowsPath (Dir target) |}
                     :: FsClient_Mkdir
                          {| fs.mk_Path := normalizeWindowsPath (Dir target);
                             fs.mk_Context := fs.PathContext_PLUGIN |}
                     :: r ++ [mappingRequest s' target username password]).
    { unfold requests in Hreq |- *. rewrite Ht. cbn [map request].
      rewrite Hreq. reflexivity. }
    split.
    + do 3 right. exists w1, u, w2. repeat split; assumption.
    + rewrite Hall. cbn [List.length]. rewrite length_app. cbn.
      pose proof (Hlen r s' (Hweak r s' Hr)). lia.
Qed.

(** X12. [SMBMount] returns nil exactly when its run ends with a mapping
    request that csi-proxy answered without error. *)
Theorem SMBMount_success_iff
    (Dir : string -> string) (W : Type) (h : Handler W) (w : W)
    (source target fsType : string)
    (mountOptions sensitiveMountOptions : list string) :
  let o := run h (SMBMount Dir source target fsType
                           mountOptions sensitiveMountOptions) w in
  result o = None
  <-> exists (pre : list Interaction) (req : smb.NewSmbGlobalMappingRequest),
        trace o = pre ++ [Interact (SMBClient_NewSmbGlobalMapping req)
                                   (inl tt)].
Proof.
  cbn zeta.
  destruct (options_cases mountOptions sensitiveMountOptions)
    as [Hempty | (username & password & mo & smo & -> & ->)].
  { destruct (SMBMount_empty_run Dir W h w source target fsType
                mountOptions sensitiveMountOptions Hempty) as [Ht Hr].
    rewrite Ht, Hr. split; [discriminate |].
    intros (pre & req & H). destruct pre; discriminate H. }
  destruct (SMBMount_trace_cases Dir W h w source target fsType
              username password mo smo)
    as [(e & Ht & Hr)
       | [(e & Ht & Hr)
         | (front & pre & s' & reply & Hfront & Hpre & Ht & Hr)]];
    rewrite Ht, Hr.
  - split; [discriminate |]. intros (pre & req & H).
    apply (app_inj_tail []) in H. destruct H as [_ H]. by_mappingReply H.
  - split; [discriminate |]. intros (pre & req & H).
    apply (app_inj_tail [_]) in H. destruct H as [_ H]. by_mappingReply H.
  - split.
    + destruct reply as [[] | err]; [| discriminate]. intros _.
      eexists (front ++ pre), _. rewrite app_assoc. reflexivity.
    + intros (pre' & req & H). rewrite app_assoc in H.
      apply app_inj_tail in H. destruct H as [_ H]. by_mappingReply H.
      injection H as ->. reflexivity.
Qed.

(** The mount of the test node succeeds: its run ends with an answered
    mapping request. *)
Lemma SMBMount_success_iff_witness :
  result (run node (SMBMount sampleDir "//smb-server/share" "/mnt/smb" "cifs"
                             ["user"] ["pass"]) node0) = None
  /\ exists (pre : list Interaction) (req : smb.NewSmbGlobalMappingRequest),
       trace (run node (SMBMount sampleDir "//smb-server/share" "/mnt/smb"
                                 "cifs" ["user"] ["pass"]) node0)
       = pre ++ [Interact (SMBClient_NewSmbGlobalMapping req) (inl tt)].
Proof.
  split; [reflexivity |].
  apply (proj1 (SMBMount_success_iff sampleDir Node node node0
                  "//smb-server/share" "/mnt/smb" "cifs" ["user"] ["pass"])).
  reflexivity.
Defined.



(** The requests of a run of [SMBMount] with non-empty options, by
    [SMBMount_trace_cases]. *)
Lemma SMBMount_requests_cases
    (Dir : string -> string) (W : Type) (h : Handler W) (w : W)
    (source target fsType username password : string)
    (mo smo : list string) :
  let parent := Dir target in
  let q := FsClient_PathExists {| fs.pe_Path := normalizeWindowsPath parent |} in
  let m := FsClient_Mkdir {| fs.mk_Path := normalizeWindowsPath parent;
                             fs.mk_Context := fs.PathContext_PLUGIN |} in
  let o := run h (SMBMount Dir source target fsType
                           (username :: mo) (password :: smo)) w in
  requests o = [q]
  \/ requests o = [q; m]
  \/ exists (front r : list Effect) (s' : string),
       (front = [q] \/ front = [q; m])
       /\ ((r = [] /\ s' = source
            /\ forall (host : string) (rest : list string),
                 strings.FieldsFunc source Split = host :: rest ->
                 strings.HasSuffix host "svc.cluster.local" = false)
           \/ exists (host : string) (rest : list string),
                strings.FieldsFunc source Split = host :: rest
                /\ strings.HasSuffix host "svc.cluster.local" = true
                /\ r = [net_ResolveIPAddr "ip4" host])
       /\ requests o
          = front ++ r ++ [mappingRequest s' target username password].
Proof.
  cbn zeta. unfold requests.
  destruct (SMBMount_trace_cases Dir W h w source target fsType
              username password mo smo)
    as [(e & Ht & _)
       | [(e & Ht & _)
         | (front & pre & s' & reply & Hfront & Hpre & Ht & _)]];
    rewrite Ht.
  - left. reflexivity.
  - right; left. reflexivity.
  - do 2 right. exists (map request front), (map request pre), s'.
    rewrite !map_app. split; [| split; [| reflexivity]].
    + destruct Hfront as [-> | [u ->]]; [left | right]; reflexivity.
    + destruct Hpre as [(-> & -> & Hno) | (host & rest & x & HF & HS & -> & _)].
      * left. auto.
      * right. exists host, rest. auto.
Qed.

(** X14. When the source has no field, or its first field does not end in
    ["svc.cluster.local"], [SMBMount] never calls the resolver, and any
    mapping request it makes carries the given source with its slashes
    turned. *)
Theorem SMBMount_no_resolver_without_suffix
    (Dir : string -> string) (W : Type) (h : Handler W) (w : W)
    (source target fsType : string)
    (mountOptions sensitiveMountOptions : list string) :
  (forall (host : string) (rest : list string),
      strings.FieldsFunc source Split = host :: rest ->
      strings.HasSuffix host "svc.cluster.local" = false) ->
  let o := run h (SMBMount Dir source target fsType
                           mountOptions sensitiveMountOptions) w in
  (forall network address : string,
      ~ In (net_ResolveIPAddr network address) (requests o))
  /\ (forall req : smb.NewSmbGlobalMappingRequest,
         In (SMBClient_NewSmbGlobalMapping req) (requests o) ->
         smb.RemotePath req = strings.Replace source "/" "\" (-1)).
Proof.
  intro Hno. cbn zeta.
  destruct (options_cases mountOptions sensitiveMountOptions)
    as [Hempty | (username & password & mo & smo & -> & ->)].
  { destruct (SMBMount_empty_run Dir W h w source target fsType
                mountOptions sensitiveMountOptions Hempty) as [Ht _].
    unfold requests. cbn zeta in Ht. rewrite Ht.
    split; [intros n a H | intros req H]; destruct H. }
  destruct (SMBMount_requests_cases Dir W h w source target fsType
              username password mo smo)
    as [Hq | [Hq | (front & r & s' & Hfront & Hr & Hq)]];
    cbn zeta in Hq; rewrite Hq.
  - split; [intros n a H | intros req H]; in_cases H; discriminate H.
  - split; [intros n a H | intros req H]; in_cases H; discriminate H.
  - destruct Hr as [(-> & -> & _) | (host & rest & HF & HS & _)];
      [| rewrite (Hno host rest HF) in HS; discriminate HS].
    destruct Hfront as [-> | ->];
      (split; [intros n a H | intros req H]); in_cases H;
      try discriminate H; injection H as <-; reflexivity.
Qed.

(** A plain server name on the test node. *)
Lemma SMBMount_no_resolver_without_suffix_witness :
  (forall (host : string) (rest : list string),
      strings.FieldsFunc "//smb-server/share" Split = host :: rest ->
      strings.HasSuffix host "svc.cluster.local" = false)
  /\ forall req : smb.NewSmbGlobalMappingRequest,
       In (SMBClient_NewSmbGlobalMapping req)
          (requests (run node (SMBMount sampleDir "//smb-server/share"
                                        "/mnt/smb" "cifs" ["user"] ["pass"])
                         node0)) ->
       smb.RemotePath req = strings.Replace "//smb-server/share" "/" "\" (-1).
Proof.
  assert (Hno : forall (host : string) (rest : list string),
             strings.FieldsFunc "//smb-server/share" Split = host :: rest ->
             strings.HasSuffix host "svc.cluster.local" = false).
  { intros host rest H. injection H as <- _. reflexivity. }
  split; [exact Hno |].
  apply (SMBMount_no_resolver_without_suffix sampleDir Node node node0
           "//smb-server/share" "/mnt/smb" "cifs" ["user"] ["pass"] Hno).
Defined.

(** X15. When the first field of the source ends in ["svc.cluster.local"],
    every mapping request of [SMBMount] comes right after one resolver call
    for ["ip4"] and that field, and only calls to the filesystem client come
    before. *)
Theorem SMBMount_resolver_before_mapping
    (Dir : string -> string) (W : Type) (h : Handler W) (w : W)
    (source target fsType : string)
    (mountOptions sensitiveMountOptions : list string)
    (host : string) (rest : list string)
    (req : smb.NewSmbGlobalMappingRequest) :
  strings.FieldsFunc source Split = host :: rest ->
  strings.HasSuffix host "svc.cluster.local" = true ->
  let o := run h (SMBMount Dir source target fsType
                           mountOptions sensitiveMountOptions) w in
  In (SMBClient_NewSmbGlobalMapping req) (requests o) ->
  exists front : list Effect,
    requests o
    = front ++ [net_ResolveIPAddr "ip4" host;
                SMBClient_NewSmbGlobalMapping req]
    /\ Forall (fun e => peer e = FsClient) front.
Proof.
  intros HF HS. cbn zeta.
  destruct (options_cases mountOptions sensitiveMountOptions)
    as [Hempty | (username & password & mo & smo & -> & ->)].
  { destruct (SMBMount_empty_run Dir W h w source target fsType
                mountOptions sensitiveMountOptions Hempty) as [Ht _].
    unfold requests. cbn zeta in Ht. rewrite Ht. intros []. }
  destruct (SMBMount_requests_cases Dir W h w source target fsType
              username password mo smo)
    as [Hq | [Hq | (front & r & s' & Hfront & Hr & Hq)]];
    cbn zeta in Hq; rewrite Hq; intro H.
  - in_cases H; discriminate H.
  - in_cases H; discriminate H.
  - destruct Hr as [(_ & _ & Hno) | (host' & rest' & HF' & _ & ->)];
      [rewrite (Hno host rest HF) in HS; discriminate HS |].
    rewrite HF in HF'. injection HF' as <- <-.
    exists front. split.
    + destruct Hfront as [-> | ->]; in_cases H; try discriminate H;
        rewrite <- H; reflexivity.
    + destruct Hfront as [-> | ->]; repeat constructor.
Qed.

(** The name that resolves on the test node. *)
Lemma SMBMount_resolver_before_mapping_witness :
  exists front : list Effect,
    requests (run node (SMBMount sampleDir sourceNamedTwice "/mnt/smb" "cifs"
                                 ["user"] ["pass"]) node0)
    = front ++ [net_ResolveIPAddr "ip4" "smb-server.default.svc.cluster.local";
                SMBClient_NewSmbGlobalMapping
                  {| smb.LocalPath := "c:\mnt\smb";
                     smb.RemotePath :=
                       "\\10.0.0.4\share\smb-server.default.svc.cluster.local";
                     smb.Username := "user";
                     smb.Password := "pass" |}]
    /\ Forall (fun e => peer e = FsClient) front.
Proof.
  apply (SMBMount_resolver_before_mapping sampleDir Node node node0
           sourceNamedTwice "/mnt/smb" "cifs" ["user"] ["pass"]
           "smb-server.default.svc.cluster.local"
           ["share"; "smb-server.default.svc.cluster.local"]).
  - reflexivity.
  - reflexivity.
  - right; right; left; reflexivity.
Defined.

(** X16. When csi-proxy answers the mapping request with an error,
    [SMBMount] returns "smb mapping failed with error: .." with the text of
    that error, and the request is the last call of the run: nothing is
    retried and nothing is undone (a parent directory made on the way
    stays). *)
Theorem SMBMount_mapping_failure
    (Dir : string -> string) (W : Type) (h : Handler W) (w : W)
    (source target fsType : string)
    (mountOptions sensitiveMountOptions : list string)
    (req : smb.NewSmbGlobalMappingRequest) (err : error) :
  let o := run h (SMBMount Dir source target fsType
                           mountOptions sensitiveMountOptions) w in
  In (Interact (SMBClient_NewSmbGlobalMapping req) (inr err)) (trace o) ->
  result o
  = Some (fmt_Errorf ("smb mapping failed with error: " ++ Error err))
  /\ exists pre : list Interaction,
       trace o = pre ++ [Interact (SMBClient_NewSmbGlobalMapping req)
                                  (inr err)]
       /\ forall i : Interaction, In i pre -> mappingReply i = None.
Proof.
  cbn zeta.
  destruct (options_cases mountOptions sensitiveMountOptions)
    as [Hempty | (username & password & mo & smo & -> & ->)].
  { destruct (SMBMount_empty_run Dir W h w source target fsType
                mountOptions sensitiveMountOptions Hempty) as [Ht _].
    cbn zeta in Ht. rewrite Ht. intros []. }
  destruct (SMBMount_trace_cases Dir W h w source target fsType
              username password mo smo)
    as [(e & Ht & Hr)
       | [(e & Ht & Hr)
         | (front & pre & s' & reply & Hfront & Hpre & Ht & Hr)]];
    rewrite Ht, Hr; intro H.
  - destruct H as [H | []]. by_mappingReply H.
  - destruct H as [H | [H | []]]; by_mappingReply H.
  - assert (Hnone : forall i, In i (front ++ pre) -> mappingReply i = None).
    { intros i Hi. apply in_app_or in Hi.
      destruct Hi as [Hi | Hi].
      - destruct Hfront as [-> | [u ->]];
          [destruct Hi as [<- | []] | destruct Hi as [<- | [<- | []]]];
          reflexivity.
      - destruct Hpre as [(-> & _) | (host & rest & x & _ & _ & -> & _)];
          [destruct Hi | destruct Hi as [<- | []]; reflexivity]. }
    rewrite app_assoc in H |- *.
    apply in_app_or in H. destruct H as [H | [H | []]].
    + apply Hnone in H. discriminate H.
    + pose proof H as H'. by_mappingReply H'. injection H' as ->.
      split; [reflexivity |].
      exists (front ++ pre). rewrite H. split; [reflexivity | exact Hnone].
Qed.

(** A csi-proxy that cannot map: the parent exists, the mapping is
    refused, and that is the end of the run. *)
Lemma SMBMount_mapping_failure_witness :
  In (Interact (SMBClient_NewSmbGlobalMapping
                  {| smb.LocalPath := "c:\mnt\smb";
                     smb.RemotePath := "\\smb-server\share";
                     smb.Username := "user";
                     smb.Password := "pass" |})
               (inr (remote "access denied")))
     (trace (run mapDenied (SMBMount sampleDir "//smb-server/share"
                                     "/mnt/smb" "cifs" ["user"] ["pass"]) tt))
  /\ result (run mapDenied (SMBMount sampleDir "//smb-server/share"
                                     "/mnt/smb" "cifs" ["user"] ["pass"]) tt)
     = Some (fmt_Errorf "smb mapping failed with error: access denied").
Proof.
  split; [right; left; reflexivity |].
  apply (SMBMount_mapping_failure sampleDir unit mapDenied tt
           "//smb-server/share" "/mnt/smb" "cifs" ["user"] ["pass"]
           {| smb.LocalPath := "c:\mnt\smb";
              smb.RemotePath := "\\smb-server\share";
              smb.Username := "user";
              smb.Password := "pass" |}
           (remote "access denied")).
  right; left; reflexivity.
Defined.

(** X17. What the mapping request of [SMBMount] carries, in every run: the
    normalized target as local path, a remote path with no forward slash
    (whatever the resolver answered), and the first element of each option
    list as user name and password. *)
Theorem SMBMount_mapping_request_fields
    (Dir : string -> string) (W : Type) (h : Handler W) (w : W)
    (source target fsType : string)
    (mountOptions sensitiveMountOptions : list string)
    (req : smb.NewSmbGlobalMappingRequest) :
  In (SMBClient_NewSmbGlobalMapping req)
     (requests (run h (SMBMount Dir source target fsType
                                mountOptions sensitiveMountOptions) w)) ->
  smb.LocalPath req = normalizeWindowsPath target
  /\ noSlash (smb.RemotePath req) = true
  /\ hd_error mountOptions = Some (smb.Username req)
  /\ hd_error sensitiveMountOptions = Some (smb.Password req).
Proof.
  destruct (options_cases mountOptions sensitiveMountOptions)
    as [Hempty | (username & password & mo & smo & -> & ->)].
  { destruct (SMBMount_empty_run Dir W h w source target fsType
                mountOptions sensitiveMountOptions Hempty) as [Ht _].
    unfold requests. cbn zeta in Ht. rewrite Ht. intros []. }
  destruct (SMBMount_requests_cases Dir W h w source target fsType
              username password mo smo)
    as [Hq | [Hq | (front & r & s' & Hfront & Hr & Hq)]];
    cbn zeta in Hq; rewrite Hq; intro H.
  - in_cases H; discriminate H.
  - in_cases H; discriminate H.
  - assert (Hlast : SMBClient_NewSmbGlobalMapping req
                    = mappingRequest s' target username password).
    { destruct Hr as [(-> & _) | (host & rest & _ & _ & ->)];
        destruct Hfront as [-> | ->]; in_cases H; try discriminate H;
        symmetry; exact H. }
    injection Hlast as ->.
    cbn [smb.LocalPath smb.RemotePath smb.Username smb.Password hd_error].
    rewrite replaceFrom_slash by lia.
    rewrite allBytes_mapBytes_toBackslash. repeat split.
Qed.

(** On the test node, for the source whose host resolves. *)
Lemma SMBMount_mapping_request_fields_witness :
  In (SMBClient_NewSmbGlobalMapping
        {| smb.LocalPath := "c:\mnt\smb";
           smb.RemotePath :=
             "\\10.0.0.4\share\smb-server.default.svc.cluster.local";
           smb.Username := "user";
           smb.Password := "pass" |})
     (requests (run node (SMBMount sampleDir sourceNamedTwice "/mnt/smb"
                                   "cifs" ["user"; "vers=3.0"] ["pass"])
                    node0))
  /\ ("c:\mnt\smb"%string = normalizeWindowsPath "/mnt/smb"
      /\ noSlash "\\10.0.0.4\share\smb-server.default.svc.cluster.local"
         = true
      /\ hd_error ["user"; "vers=3.0"] = Some "user"%string
      /\ hd_error ["pass"] = Some "pass"%string).
Proof.
  split; [right; right; left; reflexivity |].
  apply (SMBMount_mapping_request_fields sampleDir Node node node0
           sourceNamedTwice "/mnt/smb" "cifs" ["user"; "vers=3.0"] ["pass"]
           {| smb.LocalPath := "c:\mnt\smb";
              smb.RemotePath :=
                "\\10.0.0.4\share\smb-server.default.svc.cluster.local";
              smb.Username := "user";
              smb.Password := "pass" |}).
  right; right; left; reflexivity.
Defined.

(** ** Every path sent to csi-proxy is normalized *)

Lemma pathsClean_normalized (p : string) :
  noSlash (normalizeWindowsPath p)
  && negb (String.prefix "\" (normalizeWindowsPath p)) = true.
Proof.
  destruct (normalizeWindowsPath_noSlash p) as [-> ->]. reflexivity.
Qed.

(** X18. In every run of every method that calls csi-proxy ([ExistsPath],
    [MakeDir], [Rmdir], [Unmount], [SMBUnmount], [Mount],
    [IsLikelyNotMountPoint], [SMBMount]), each local path carried by a
    request has no forward slash and does not begin with a backslash:
    paths reach csi-proxy only after [normalizeWindowsPath]. *)
Theorem requests_carry_normalized_paths
    (Dir : string -> string) (W : Type) (h : Handler W) (w : W)
    (path source target fsType : string)
    (mountOptions sensitiveMountOptions : list string) :
  let clean {A : Type} (p : Prog A) : Prop :=
    Forall (fun e => pathsClean e = true) (requests (run h p w)) in
  clean (ExistsPath path)
  /\ clean (MakeDir path)
  /\ clean (Rmdir path)
  /\ clean (Unmount path)
  /\ clean (SMBUnmount path)
  /\ clean (Mount source target fsType mountOptions)
  /\ clean (IsLikelyNotMountPoint path)
  /\ clean (SMBMount Dir source target fsType
                     mountOptions sensitiveMountOptions).
Proof.
  cbn zeta.
  assert (HR : Forall (fun e => pathsClean e = true)
                      (requests (run h (Rmdir path) w))).
  { rewrite run_Rmdir. repeat constructor. unfold pathsClean. cbn.
    now rewrite pathsClean_normalized. }
  split; [| split; [| split; [exact HR | split; [exact HR | split;
    [exact HR | split; [| split]]]]]].
  - unfold ExistsPath, call, requests. cbn [bind run].
    destruct (h _ w) as [[r | e] w1]; repeat constructor;
      unfold pathsClean; cbn; now rewrite pathsClean_normalized.
  - unfold MakeDir, call, requests. cbn [bind run].
    destruct (h _ w) as [[r | e] w1]; repeat constructor;
      unfold pathsClean; cbn; now rewrite pathsClean_normalized.
  - unfold Mount, call, requests. cbn [bind run].
    destruct (h _ w) as [[r | e] w1]; repeat constructor;
      unfold pathsClean; cbn; now rewrite !pathsClean_normalized.
  - destruct (run_IsLikelyNotMountPoint W h w path)
      as [(e & w1 & Hq & ->)
         | [(w1 & Hq & ->)
           | [(w1 & e & w2 & Hq & Hm & ->)
             | (w1 & b & w2 & Hq & Hm & ->)]]];
      repeat constructor; unfold pathsClean; cbn;
      now rewrite pathsClean_normalized.
  - destruct (options_cases mountOptions sensitiveMountOptions)
      as [Hempty | (username & password & mo & smo & -> & ->)].
    { destruct (SMBMount_empty_run Dir W h w source target fsType
                  mountOptions sensitiveMountOptions Hempty) as [Ht _].
      unfold requests. cbn zeta in Ht. rewrite Ht. constructor. }
    assert (Hq : pathsClean
                   (FsClient_PathExists
                      {| fs.pe_Path := normalizeWindowsPath (Dir target) |})
                 = true)
      by (unfold pathsClean; cbn; now rewrite pathsClean_normalized).
    assert (Hm : pathsClean
                   (FsClient_Mkdir
                      {| fs.mk_Path := normalizeWindowsPath (Dir target);
                         fs.mk_Context := fs.PathContext_PLUGIN |})
                 = true)
      by (unfold pathsClean; cbn; now rewrite pathsClean_normalized).
    destruct (SMBMount_requests_cases Dir W h w source target fsType
                username password mo smo)
      as [Hr | [Hr | (front & r & s' & Hfront & Hr & Hreq)]];
      cbn zeta in *.
    + rewrite Hr. repeat constructor; assumption.
    + rewrite Hr. repeat constructor; assumption.
    + rewrite Hreq. apply Forall_app. split.
      * destruct Hfront as [-> | ->]; repeat constructor; assumption.
      * apply Forall_app. split.
        -- destruct Hr as [(-> & _) | (host & rest & _ & _ & ->)];
             repeat constructor.
        -- repeat constructor. unfold pathsClean, mappingRequest. cbn.
           now rewrite pathsClean_normalized.
Qed.

(** ** The fields of a source *)

Lemma fieldsFrom_fields (f : ascii -> bool) (s cur : string) :
  allBytes (fun c => negb (f c)) cur = true ->
  Forall (fun field => field <> EmptyString
                       /\ allBytes (fun c => negb (f c)) field = true)
         (strings.fieldsFrom f cur s).
Proof.
  revert cur; induction s as [|c s IH]; intros cur Hcur; cbn.
  - destruct cur; constructor; [split; [discriminate | exact Hcur] |].
    constructor.
  - destruct (f c) eqn:E.
    + destruct cur as [|x cur]; [apply IH; reflexivity |].
      constructor; [split; [discriminate | exact Hcur] |].
      apply IH. reflexivity.
    + apply IH. rewrite allBytes_append, Hcur. cbn. now rewrite E.
Qed.

(** X19. Each field that [strings.FieldsFunc(source, Split)] yields is
    non-empty and holds neither a space nor a slash; in particular the host
    given to the resolver never does. *)
Theorem FieldsFunc_Split_fields (source : string) :
  Forall (fun field =>
            field <> EmptyString
            /\ allBytes (fun c => negb (Ascii.eqb c " ")
                                  && negb (Ascii.eqb c "/")) field = true)
         (strings.FieldsFunc source Split).
Proof.
  unfold strings.FieldsFunc.
  pose proof (fieldsFrom_fields Split source EmptyString eq_refl) as H.
  eapply Forall_impl; [| exact H].
  intros field [Hne Hall]. split; [exact Hne |].
  clear - Hall. induction field as [|c field IH]; [reflexivity |].
  cbn in Hall |- *. apply andb_true_iff in Hall. destruct Hall as [Hc Hf].
  rewrite (IH Hf), andb_true_r. unfold Split in Hc.
  now rewrite negb_orb in Hc.
Qed.
